(** * Crypto price reminder bot: the reminder scheduling engine

    A shallow embedding of [main.py]: the reminders table, the command
    handler [set_reminder], and the background checker [check_reminders]
    with the functions it calls.  The external collaborators (the clock,
    the price API, the Telegram client and the croniter library) are
    oracles; everything the program itself decides is modelled as written. *)

From Stdlib Require Import ZArith NArith List String Ascii Bool Lia.
Import ListNotations.
Local Open Scope Z_scope.

(** ** Text: [str.split(None, maxsplit)] on Unicode text *)

(** A text is a Python [str], held as its UTF-8 bytes (a lone surrogate as
    its three bytes): two texts are equal exactly when their bytes are, and
    no encoded character occurs inside the bytes of another.  [str.upper]
    maps characters through the Unicode tables of the interpreter; it is a
    parameter [upper] of the handlers that call it. *)

Module Text.

(** The characters [str.split] cuts at and [str.isspace] accepts: TAB..CR,
    FS..US, the blank, U+0085, U+00A0, U+1680, U+2000..U+200A, U+2028,
    U+2029, U+202F, U+205F and U+3000. *)
Definition isspace (cp : N) : bool :=
  ((9 <=? cp) && (cp <=? 13) || (28 <=? cp) && (cp <=? 32)
   || (cp =? 133) || (cp =? 160) || (cp =? 5760)
   || (8192 <=? cp) && (cp <=? 8202)
   || (cp =? 8232) || (cp =? 8233) || (cp =? 8239) || (cp =? 8287)
   || (cp =? 12288))%N.

(** The six low bits of a continuation byte 10xxxxxx. *)
Definition tail_bits (a : ascii) : option N :=
  let x := N_of_ascii a in
  if ((128 <=? x) && (x <=? 191))%N then Some (x - 128)%N else None.

(** The first character of a text and the text after it; [None] on the
    empty text and in the middle of a character. *)
Definition head_char (s : string) : option (N * string) :=
  match s with
  | EmptyString => None
  | String a t =>
      let x := N_of_ascii a in
      if (x <? 128)%N then Some (x, t)
      else if (x <? 194)%N then None
      else if (x <? 224)%N then
        match t with
        | String b t2 =>
            match tail_bits b with
            | Some y => Some (((x - 192) * 64 + y)%N, t2)
            | None => None
            end
        | EmptyString => None
        end
      else if (x <? 240)%N then
        match t with
        | String b (String c t3) =>
            match tail_bits b, tail_bits c with
            | Some y, Some z =>
                let cp := (((x - 224) * 64 + y) * 64 + z)%N in
                if (2048 <=? cp)%N then Some (cp, t3) else None
            | _, _ => None
            end
        | _ => None
        end
      else if (x <? 245)%N then
        match t with
        | String b (String c (String d t4)) =>
            match tail_bits b, tail_bits c, tail_bits d with
            | Some y, Some z, Some u =>
                let cp := ((((x - 240) * 64 + y) * 64 + z) * 64 + u)%N in
                if ((65536 <=? cp) && (cp <=? 1114111))%N
                then Some (cp, t4) else None
            | _, _, _ => None
            end
        | _ => None
        end
      else None
  end.

(** The text after the blank character that [s] starts with, if it starts
    with one. *)
Definition after_blank (s : string) : option string :=
  match head_char s with
  | Some (cp, rest) => if isspace cp then Some rest else None
  | None => None
  end.

Fixpoint skip_blanks (fuel : nat) (s : string) : string :=
  match fuel with
  | O => s
  | S k =>
      match after_blank s with
      | Some rest => skip_blanks k rest
      | None => s
      end
  end.

(** The text without its leading blanks; a text has no more blanks than
    bytes. *)
Definition skip_ws (s : string) : string := skip_blanks (String.length s) s.

(** The longest prefix without a blank, and what follows it. *)
Fixpoint take_word (s : string) : string * string :=
  match s with
  | EmptyString => (EmptyString, EmptyString)
  | String a t =>
      match after_blank s with
      | Some _ => (EmptyString, s)
      | None => let (w, r) := take_word t in (String a w, r)
      end
  end.

(** [s.split(None, maxcount)]: at most [maxcount] words are cut off the
    front; what is left, stripped of leading blanks only, is the last
    piece when it is not empty. *)
Fixpoint split_ws (maxcount : nat) (s : string) : list string :=
  match skip_ws s with
  | EmptyString => []
  | String c t =>
      match maxcount with
      | O => [String c t]
      | S k => let (w, r) := take_word (String c t) in w :: split_ws k r
      end
  end.

(** No blank character starts anywhere in the text. *)
Fixpoint no_blank (s : string) : bool :=
  match s with
  | EmptyString => true
  | String a t =>
      match after_blank s with
      | Some _ => false
      | None => no_blank t
      end
  end.

(** [str.upper] on ASCII text, where it maps a..z to A..Z and keeps the
    rest: the instance of [upper] in the scenarios, whose texts are
    ASCII. *)
Definition ascii_upper_char (c : ascii) : ascii :=
  let n := nat_of_ascii c in
  if ((97 <=? n) && (n <=? 122))%nat then ascii_of_nat (n - 32) else c.

Fixpoint ascii_upper (s : string) : string :=
  match s with
  | EmptyString => EmptyString
  | String c t => String (ascii_upper_char c) (ascii_upper t)
  end.

End Text.

(** ** The reminders table *)

(** Instants are microseconds since the epoch, the resolution of
    [datetime]. *)
Definition minute_us : Z := 60000000.

Record Row := mkRow {
  symbol     : string;       (* TEXT PRIMARY KEY *)
  chat_id    : Z;            (* INTEGER NOT NULL *)
  cron_expr  : string;       (* TEXT NOT NULL *)
  last_run   : option Z;     (* TIMESTAMP, NULL until the first firing *)
  created_at : Z             (* TIMESTAMP DEFAULT CURRENT_TIMESTAMP *)
}.

Definition Table := list Row.

(** The database file: [None] when the table does not exist. *)
Definition Store := option Table.

Definition has_symbol (s : string) (r : Row) : bool := String.eqb (symbol r) s.

Definition count_symbol (s : string) (t : Table) : nat :=
  List.length (filter (has_symbol s) t).

Definition find_symbol (s : string) (t : Table) : option Row :=
  find (has_symbol s) t.

(** [DROP TABLE IF EXISTS reminders] *)
Definition sql_drop (_ : Store) : Store := None.

(** [CREATE TABLE IF NOT EXISTS reminders (...)] *)
Definition sql_create (st : Store) : Store :=
  match st with
  | None => Some []
  | Some t => Some t
  end.

(** [REPLACE INTO reminders (symbol, chat_id, cron_expr) VALUES (?, ?, ?)]:
    the rows in conflict on the primary key are deleted, then the new row is
    inserted; the columns not listed take their defaults, NULL for
    [last_run] and the current time for [created_at]. *)
Definition sql_replace (s : string) (chat : Z) (expr : string) (stamp : Z)
    (t : Table) : Table :=
  filter (fun r => negb (has_symbol s r)) t ++ [mkRow s chat expr None stamp].

(** [UPDATE reminders SET last_run = ? WHERE symbol = ?] *)
Definition sql_update_last_run (s : string) (stamp : Z) (t : Table) : Table :=
  map (fun r => if has_symbol s r
                then mkRow (symbol r) (chat_id r) (cron_expr r) (Some stamp)
                           (created_at r)
                else r) t.

(** [SELECT symbol, chat_id, cron_expr, last_run FROM reminders] *)
Definition Reminder : Type := string * Z * string * option Z.

Definition select_reminder (r : Row) : Reminder :=
  (symbol r, chat_id r, cron_expr r, last_run r).

(** ** The croniter library *)

(** The cron evaluator is a library outside the repository.  It is taken as
    a parameter: which expressions it accepts, and the previous and the next
    matching instant from a start instant ([None] when the search raises).
    [is_valid e] is also whether the constructor [croniter(e, now)]
    accepts [e]. *)
Record Croniter := mkCroniter {
  is_valid : string -> bool;
  get_prev : string -> Z -> option Z;
  get_next : string -> Z -> option Z
}.

(** croniter never answers the start instant itself: the previous match is
    strictly before it. *)
Definition prev_is_earlier (c : Croniter) : Prop :=
  forall e t p, get_prev c e t = Some p -> p < t.

(** ** The world the program runs in *)

(** A quote of the price API; the program only passes it on. *)
Definition Price := Z.

Inductive Exn :=
| ValueError (reason : string)
| CroniterBadCronError          (* croniter: the expression does not parse *)
| CroniterBadDateError          (* croniter: no matching date was found *)
| OperationalError              (* sqlite3: no such table *)
| ApiException                  (* telebot: the message was not sent *)
| TypeError (argument : string).

(** [except ValueError]: the two croniter errors are subclasses of it. *)
Definition is_value_error (e : Exn) : bool :=
  match e with
  | ValueError _ | CroniterBadCronError | CroniterBadDateError => true
  | _ => false
  end.

(** The texts the bot sends, by their template and its arguments. *)
Inductive Msg :=
| PriceAlert (s : string) (p : Price)
| PriceError (s : string)
| ReminderSet (s expr : string)
| PriceTest (s : string) (p : Price)
| PriceWarning (s : string)
| UsageError (e : Exn)
| OtherError (e : Exn).

Record Message := mkMessage {
  text : string;                (* message.text *)
  chat : Z                      (* message.chat.id *)
}.

(** What the program does to the outside, in the order it does it. *)
Inductive Event :=
| EvPrice (s : string) (quote : option Price)     (* get_crypto_price *)
| EvSend (to : Z) (m : Msg) (sent : bool)         (* bot.send_message *)
| EvReply (to : Z) (m : Msg) (sent : bool)        (* bot.reply_to *)
| EvUpdate (s : string) (stamp : Z)               (* the UPDATE of last_run *)
| EvLog (s : string) (e : Exn)                    (* print in the handler *)
| EvSleep (seconds : Z).                          (* time.sleep *)

(** The collaborators answer by the number of calls made so far, so that
    the same request may succeed once and fail later. *)
Record Env := mkEnv {
  clock  : nat -> Z;                        (* datetime.now *)
  fetch  : nat -> string -> option Price;   (* the price API, None on failure *)
  notify : nat -> Z -> Msg -> bool          (* false: the send raises *)
}.

Record World := mkWorld {
  store : Store;
  tick  : nat;
  trace : list Event
}.

(** ** State and exceptions *)

Inductive Res (A : Type) :=
| Ok (a : A)
| Raise (e : Exn)
| OutOfFuel.                       (* the fuel of a loop ran out: still running *)
Arguments Ok {A} a.
Arguments Raise {A} e.
Arguments OutOfFuel {A}.

Definition M (A : Type) : Type := World -> Res A * World.

Definition ret {A} (a : A) : M A := fun w => (Ok a, w).

Definition raise {A} (e : Exn) : M A := fun w => (Raise e, w).

Definition bind {A B} (m : M A) (k : A -> M B) : M B :=
  fun w =>
    match m w with
    | (Ok a, w') => k a w'
    | (Raise e, w') => (Raise e, w')
    | (OutOfFuel, w') => (OutOfFuel, w')
    end.

(** [try: m  except Exception as e: h e] *)
Definition try_except {A} (m : M A) (h : Exn -> M A) : M A :=
  fun w =>
    match m w with
    | (Raise e, w') => h e w'
    | r => r
    end.

Declare Scope prog_scope.
Delimit Scope prog_scope with prog.
Notation "x <- m ;; k" := (bind m (fun x => k))
  (at level 61, m at next level, right associativity) : prog_scope.
Notation "m ;; k" := (bind m (fun _ => k))
  (at level 61, right associativity) : prog_scope.
Local Open Scope prog_scope.

Definition emit (e : Event) : M unit :=
  fun w => (Ok tt, mkWorld (store w) (tick w) (trace w ++ [e])).

(** [for x in xs: body x] *)
Fixpoint for_each {A} (xs : list A) (body : A -> M unit) : M unit :=
  match xs with
  | [] => ret tt
  | x :: rest => body x ;; for_each rest body
  end.

(** ** The program *)

Section Program.

(** [str.upper], from the Unicode tables of the interpreter. *)
Variable upper : string -> string.
Variable cron : Croniter.
Variable env : Env.

Definition datetime_now : M Z :=
  fun w => (Ok (clock env (tick w)),
            mkWorld (store w) (S (tick w)) (trace w)).

Definition bot_send_message (to : Z) (m : Msg) : M unit :=
  fun w =>
    let sent := notify env (tick w) to m in
    (if sent then Ok tt else Raise ApiException,
     mkWorld (store w) (S (tick w)) (trace w ++ [EvSend to m sent])).

Definition bot_reply_to (message : Message) (m : Msg) : M unit :=
  fun w =>
    let sent := notify env (tick w) (chat message) m in
    (if sent then Ok tt else Raise ApiException,
     mkWorld (store w) (S (tick w))
             (trace w ++ [EvReply (chat message) m sent])).

Definition init_db : M unit :=
  fun w => (Ok tt,
            mkWorld (sql_create (sql_drop (store w))) (tick w) (trace w)).

(** Every failure of the request is caught inside and answered [None]. *)
Definition get_crypto_price (s : string) : M (option Price) :=
  fun w =>
    let quote := fetch env (tick w) s in
    (Ok quote, mkWorld (store w) (S (tick w)) (trace w ++ [EvPrice s quote])).

Definition send_price_reminder (to : Z) (s : string) : M unit :=
  price <- get_crypto_price s ;;
  match price with
  | Some p => bot_send_message to (PriceAlert s p)
  | None => bot_send_message to (PriceError s)
  end.

Definition get_all_reminders : M (list Reminder) :=
  fun w =>
    match store w with
    | Some t => (Ok (map select_reminder t), w)
    | None => (Raise OperationalError, w)
    end.

Definition update_reminder_last_run (s : string) : M unit :=
  stamp <- datetime_now ;;
  fun w =>
    match store w with
    | Some t =>
        (Ok tt, mkWorld (Some (sql_update_last_run s stamp t)) (tick w)
                        (trace w ++ [EvUpdate s stamp]))
    | None => (Raise OperationalError, w)
    end.

(** Lines 100 to 103: the croniter object, the reference instant and the
    test of the [if].  [total_seconds() > -60] on microseconds.  A stored
    [last_run] reads back as the text of a timestamp, never empty, so
    [if last_run] and [last_run is None] split the cases the same way. *)
Definition is_due (expr : string) (last : option Z) (now : Z) : Res bool :=
  if is_valid cron expr then
    match last with
    | Some _ =>
        match get_prev cron expr now with
        | Some next_run => Ok (now - next_run >? - minute_us)
        | None => Raise CroniterBadDateError
        end
    | None =>
        match get_next cron expr now with
        | Some _ => Ok true
        | None => Raise CroniterBadDateError
        end
    end
  else Raise CroniterBadCronError.

(** The body of the [try] for one reminder. *)
Definition process_reminder (now : Z) (r : Reminder) : M unit :=
  let '(s, to, expr, last) := r in
  due <- (fun w => (is_due expr last now, w)) ;;
  if due then send_price_reminder to s ;; update_reminder_last_run s
  else ret tt.

(** The [try] with its [except Exception], which prints and goes on. *)
Definition guarded_reminder (now : Z) (r : Reminder) : M unit :=
  let '(s, _, _, _) := r in
  try_except (process_reminder now r) (fun e => emit (EvLog s e)).

(** One turn of the [while True] loop, up to the sleep. *)
Definition check_cycle : M unit :=
  now <- datetime_now ;;
  reminders <- get_all_reminders ;;
  for_each reminders (guarded_reminder now).

(** [while True]: the loop has no exit; [fuel] bounds the turns run. *)
Fixpoint check_reminders (fuel : nat) : M unit :=
  match fuel with
  | O => fun w => (OutOfFuel, w)
  | S n => check_cycle ;; emit (EvSleep 60) ;; check_reminders n
  end.

(** A call of [check_reminders] with keyword arguments: the function is
    declared without parameters. *)
Definition call_check_reminders (kwargs : list string) (fuel : nat) : M unit :=
  match kwargs with
  | [] => check_reminders fuel
  | k :: _ => raise (TypeError k)
  end.

(** The [REPLACE INTO] of [set_reminder]; the database reads its own
    clock for the default of [created_at]. *)
Definition replace_reminder (s : string) (to : Z) (expr : string) : M unit :=
  fun w =>
    match store w with
    | Some t =>
        (Ok tt, mkWorld (Some (sql_replace s to expr (clock env (tick w)) t))
                        (S (tick w)) (trace w))
    | None => (Raise OperationalError, w)
    end.

Definition set_reminder (message : Message) : M unit :=
  try_except
    (let args := Text.split_ws 2 (text message) in
     if negb (Nat.eqb (List.length args) 3)
     then raise (ValueError "Invalid number of arguments")
     else
       let s := upper (nth 1 args EmptyString) in
       let expr := nth 2 args EmptyString in
       if negb (is_valid cron expr)
       then raise (ValueError "Invalid cron expression")
       else
         replace_reminder s (chat message) expr ;;
         bot_reply_to message (ReminderSet s expr) ;;
         price <- get_crypto_price s ;;
         match price with
         | Some p => bot_reply_to message (PriceTest s p)
         | None => bot_reply_to message (PriceWarning s)
         end)
    (fun e =>
       if is_value_error e then bot_reply_to message (UsageError e)
       else bot_reply_to message (OtherError e)).

End Program.

(** ** A cron evaluator for the expressions [*/n * * * *]

    An instance of the evaluator for the minute-step expressions of the
    tests and of the help text, with croniter's answers on them: the
    matching instants are the whole minutes whose minute of the hour is a
    multiple of [n], and the previous (next) one is strictly before (after)
    the start. *)

Module EveryMinutes.

Definition is_digit (c : ascii) : bool :=
  let n := nat_of_ascii c in ((48 <=? n) && (n <=? 57))%nat.

Fixpoint number (s : string) (acc : Z) : Z * string :=
  match s with
  | EmptyString => (acc, EmptyString)
  | String c t =>
      if is_digit c
      then number t (10 * acc + Z.of_nat (nat_of_ascii c - 48))
      else (acc, s)
  end.

(** The step [n] of [*/n * * * *], between 1 and 59; [* * * * *] is
    step 1. *)
Definition step_of (e : string) : option Z :=
  if String.eqb e "* * * * *" then Some 1
  else
    match e with
    | String "*" (String "/" (String d rest)) =>
        if is_digit d then
          let (n, tl) := number (String d rest) 0 in
          if String.eqb tl " * * * *" && (1 <=? n) && (n <=? 59)
          then Some n else None
        else None
    | _ => None
    end.

Definition matches (n m : Z) : bool := (m mod 60) mod n =? 0.

(** Search the minutes from [m] in direction [dir]; minute 0 of an hour
    always matches, so 60 tries are enough. *)
Fixpoint search (tries : nat) (dir n m : Z) : option Z :=
  match tries with
  | O => None
  | S k => if matches n m then Some (m * minute_us)
           else search k dir n (m + dir)
  end.

Definition valid (e : string) : bool :=
  match step_of e with Some _ => true | None => false end.

Definition prev (e : string) (t : Z) : option Z :=
  match step_of e with
  | Some n => search 60 (-1) n ((t - 1) / minute_us)
  | None => None
  end.

Definition next (e : string) (t : Z) : option Z :=
  match step_of e with
  | Some n => search 60 1 n (t / minute_us + 1)
  | None => None
  end.

Definition croniter : Croniter := mkCroniter valid prev next.

End EveryMinutes.

(** ** Vocabulary of the statements *)

(** The notification of [send_price_reminder] for a quote. *)
Definition price_message (s : string) (quote : option Price) : Msg :=
  match quote with
  | Some p => PriceAlert s p
  | None => PriceError s
  end.

(** The pieces of a [/setreminder] message, as [set_reminder] cuts them. *)
Definition args_of (message : Message) : list string :=
  Text.split_ws 2 (text message).

Definition symbol_of (upper : string -> string) (message : Message) : string :=
  upper (nth 1 (args_of message) EmptyString).

Definition expr_of (message : Message) : string :=
  nth 2 (args_of message) EmptyString.

(** The primary key holds: no symbol labels two rows. *)
Definition unique_symbols (t : Table) : Prop :=
  forall s, (count_symbol s t <= 1)%nat.

Definition is_update (e : Event) : bool :=
  match e with EvUpdate _ _ => true | _ => false end.

Definition is_send (e : Event) : bool :=
  match e with EvSend _ _ _ => true | _ => false end.

(** Position of the first event that satisfies [p]. *)
Fixpoint first_index (p : Event -> bool) (tr : list Event) : option nat :=
  match tr with
  | [] => None
  | e :: rest =>
      if p e then Some O
      else match first_index p rest with
           | Some i => Some (S i)
           | None => None
           end
  end.

(** The write of [last_run] comes before the call of the notifier. *)
Definition write_precedes_delivery (tr : list Event) : bool :=
  match first_index is_update tr, first_index is_send tr with
  | Some i, Some j => (i <? j)%nat
  | _, _ => false
  end.

(** The world after a due reminder: the quote, the send, and the write
    when the send went through. *)
Definition fired (env : Env) (s : string) (to : Z) (w : World) : World :=
  let quote := fetch env (tick w) s in
  let m := price_message s quote in
  let stamp := clock env (S (S (tick w))) in
  if notify env (S (tick w)) to m then
    match store w with
    | Some t =>
        mkWorld (Some (sql_update_last_run s stamp t)) (S (S (S (tick w))))
          (trace w ++ [EvPrice s quote; EvSend to m true; EvUpdate s stamp])
    | None =>
        mkWorld None (S (S (S (tick w))))
          (trace w ++ [EvPrice s quote; EvSend to m true;
                       EvLog s OperationalError])
    end
  else
    mkWorld (store w) (S (S (tick w)))
      (trace w ++ [EvPrice s quote; EvSend to m false; EvLog s ApiException]).

(** What one guarded reminder can do to the world: it returns, it only
    adds events, and it leaves the keys and creation times alone. *)
Record step_ok (w w' : World) : Prop := {
  step_trace : exists l, trace w' = trace w ++ l;
  step_store : forall t, store w = Some t ->
               exists t', store w' = Some t'
                          /\ map symbol t' = map symbol t
                          /\ map created_at t' = map created_at t
}.

(** ** The scenario of the test suite *)

Module Scenario.

Local Open Scope string_scope.

(** 2025-02-23 10:00 UTC *)
Definition T : Z := 1740304800000000.

Definition TEST_CHAT_ID : Z := 123456789.

Definition btc (last : option Z) : Row :=
  mkRow "BTC" TEST_CHAT_ID "*/5 * * * *" last T.

Definition world_of (t : Table) : World := mkWorld (Some t) O [].

(** The clock stands at [t]; every quote is [quote]; every send succeeds
    or not as [sent] says. *)
Definition frozen (t : Z) (quote : option Price) (sent : bool) : Env :=
  mkEnv (fun _ => t) (fun _ _ => quote) (fun _ _ _ => sent).

(** The clock starts at [t] and moves on by one second with every call to
    the outside. *)
Definition running (t : Z) (quote : option Price) (sent : bool) : Env :=
  mkEnv (fun k => t + Z.of_nat k * 1000000)
        (fun _ _ => quote) (fun _ _ _ => sent).

(** As [running], with the sleep of one minute after the first four calls:
    one firing cycle, then the next cycle. *)
Definition two_cycles (t : Z) (quote : option Price) : Env :=
  mkEnv (fun k => if (k <? 4)%nat then t + Z.of_nat k * 1000000
                  else t + minute_us + Z.of_nat k * 1000000)
        (fun _ _ => quote) (fun _ _ _ => true).

Definition cycle (e : Env) : M unit := check_cycle EveryMinutes.croniter e.

Definition register (e : Env) (txt : string) (c : Z) : M unit :=
  set_reminder Text.ascii_upper EveryMinutes.croniter e (mkMessage txt c).

(** A row with a schedule that no longer parses, next to a sound one. *)
Definition broken : Row := mkRow "ETH" 7 "every day" None T.

(** An evaluator that also accepts [0 0 30 2 *], whose fields are all in
    range, and finds no date for it, neither before nor after: there is no
    30th of February. *)
Definition with_february_30 : Croniter :=
  mkCroniter
    (fun e => String.eqb e "0 0 30 2 *" || EveryMinutes.valid e)
    (fun e t => if String.eqb e "0 0 30 2 *" then None
                else EveryMinutes.prev e t)
    (fun e t => if String.eqb e "0 0 30 2 *" then None
                else EveryMinutes.next e t).

Definition february_30 : Row := mkRow "SOL" 7 "0 0 30 2 *" None T.

(** The no-break space U+00A0, a blank for [str.split]. *)
Definition nbsp : string :=
  String (ascii_of_nat 194) (String (ascii_of_nat 160) EmptyString).

End Scenario.

(** ** The other command handlers *)

(** [s.split()], without a bound on the pieces.  A text has no more words
    than characters, so its length is bound enough (lemma
    [split_ws_saturated]). *)
Definition text_split (s : string) : list string :=
  Text.split_ws (String.length s) s.

(** The texts of [remove_reminder] and [list_reminders], by their template
    and its arguments. *)
Inductive Reply :=
| Removed (s : string)                  (* Removed reminder for ... *)
| NoActiveReminder (s : string)         (* No active reminder found for ... *)
| SpecifySymbolToRemove                 (* Please specify a symbol to remove *)
| NoReminders                           (* You have no active reminders *)
| ActiveReminders (entries : list (string * string)).

Definition owned_by (c : Z) (s : string) (r : Row) : bool :=
  (chat_id r =? c) && has_symbol s r.

(** [DELETE FROM reminders WHERE chat_id = ? AND symbol = ?], with the
    [rowcount] of the cursor. *)
Definition sql_delete (c : Z) (s : string) (t : Table) : Table * nat :=
  (filter (fun r => negb (owned_by c s r)) t,
   List.length (filter (owned_by c s) t)).

(** [SELECT symbol, cron_expr FROM reminders WHERE chat_id = ?] *)
Definition sql_select_owned (c : Z) (t : Table) : list (string * string) :=
  map (fun r => (symbol r, cron_expr r)) (filter (fun r => chat_id r =? c) t).

(** These two handlers touch the store once and then answer once: they are
    functions from the store to the store they leave and the text they hand
    to [bot.reply_to], or the exception that escapes before any answer.
    The only [IndexError] of [remove_reminder] is the one of the subscript
    [split()[1]], which its handler answers. *)
Definition remove_reminder (upper : string -> string) (message : Message)
    (st : Store) : Res Reply * Store :=
  match nth_error (text_split (text message)) 1 with
  | None => (Ok SpecifySymbolToRemove, st)
  | Some word =>
      let s := upper word in
      match st with
      | None => (Raise OperationalError, st)
      | Some t =>
          let (t', rowcount) := sql_delete (chat message) s t in
          (Ok (if (0 <? rowcount)%nat then Removed s else NoActiveReminder s),
           Some t')
      end
  end.

Definition list_reminders (message : Message) (st : Store)
    : Res Reply * Store :=
  match st with
  | None => (Raise OperationalError, st)
  | Some t =>
      let reminders := sql_select_owned (chat message) t in
      (Ok (match reminders with
           | [] => NoReminders
           | _ => ActiveReminders reminders
           end), st)
  end.

(** ** Vocabulary of the further properties *)

(** The columns that only a registration or a removal may change. *)
Definition static_columns (r : Row) : string * Z * string * Z :=
  (symbol r, chat_id r, cron_expr r, created_at r).

Definition is_price (e : Event) : bool :=
  match e with EvPrice _ _ => true | _ => false end.

Definition is_sleep (e : Event) : bool :=
  match e with EvSleep _ => true | _ => false end.

Definition count_events (p : Event -> bool) (tr : list Event) : nat :=
  List.length (filter p tr).

(** An event that the turn of one of the reminders [rs] may leave: a price
    fetch, a write or a log line for its symbol, or a price text sent to
    its chat. *)
Definition event_of (rs : list Reminder) (e : Event) : Prop :=
  exists s to expr last,
    In (s, to, expr, last) rs
    /\ match e with
       | EvPrice s' _ => s' = s
       | EvSend to' m _ => to' = to /\ exists q, m = price_message s q
       | EvUpdate s' _ => s' = s
       | EvLog s' _ => s' = s
       | EvReply _ _ _ => False
       | EvSleep _ => False
       end.

(** What a loop over the reminders [rs] does between two worlds. *)
Record cycle_ok (rs : list Reminder) (w w' : World) : Prop := {
  cycle_events :
    exists l, trace w' = trace w ++ l
              /\ Forall (event_of rs) l
              /\ (count_events is_send l <= List.length rs)%nat
              /\ count_events is_price l = count_events is_send l;
  cycle_store :
    forall t, store w = Some t ->
    exists t', store w' = Some t'
               /\ map static_columns t' = map static_columns t
}.

(** * Facts *)

(** ** The evaluator instance answers strictly earlier instants *)

Lemma search_back_le tries n m p :
  EveryMinutes.search tries (-1) n m = Some p -> p <= m * minute_us.
Proof.
  revert m. induction tries as [|k IH]; intros m; simpl; [discriminate|].
  destruct (EveryMinutes.matches n m).
  - intros [= <-]. lia.
  - intros H. apply IH in H. unfold minute_us in *. lia.
Qed.

Lemma every_minutes_prev_is_earlier : prev_is_earlier EveryMinutes.croniter.
Proof.
  intros e t p. simpl. unfold EveryMinutes.prev.
  destruct (EveryMinutes.step_of e) as [n|]; [|discriminate].
  intros H. apply search_back_le in H.
  assert ((t - 1) / minute_us * minute_us <= t - 1).
  { rewrite Z.mul_comm. apply Z.mul_div_le. unfold minute_us. lia. }
  lia.
Qed.

(** ** The table operations *)

Lemma has_symbol_true s r : has_symbol s r = true <-> symbol r = s.
Proof. unfold has_symbol. apply String.eqb_eq. Qed.

Lemma has_symbol_false s r : has_symbol s r = false <-> symbol r <> s.
Proof. unfold has_symbol. apply String.eqb_neq. Qed.

Lemma count_symbol_app s t1 t2 :
  count_symbol s (t1 ++ t2) = (count_symbol s t1 + count_symbol s t2)%nat.
Proof. unfold count_symbol. rewrite filter_app, length_app. reflexivity. Qed.

Lemma count_symbol_removed s t :
  count_symbol s (filter (fun r => negb (has_symbol s r)) t) = O.
Proof.
  unfold count_symbol. induction t as [|r t IH]; simpl; [reflexivity|].
  destruct (has_symbol s r) eqn:E; simpl; [exact IH|].
  rewrite E. exact IH.
Qed.

Lemma count_symbol_kept s s' t :
  s' <> s ->
  count_symbol s' (filter (fun r => negb (has_symbol s r)) t) = count_symbol s' t.
Proof.
  intros Hne. unfold count_symbol.
  induction t as [|r t IH]; simpl; [reflexivity|].
  destruct (has_symbol s r) eqn:E; simpl.
  - apply has_symbol_true in E.
    destruct (has_symbol s' r) eqn:E'; [|exact IH].
    apply has_symbol_true in E'. congruence.
  - destruct (has_symbol s' r); simpl; now rewrite IH.
Qed.

Lemma count_symbol_replace_same s to expr stamp t :
  count_symbol s (sql_replace s to expr stamp t) = 1%nat.
Proof.
  unfold sql_replace. rewrite count_symbol_app, count_symbol_removed.
  unfold count_symbol, has_symbol. simpl. now rewrite String.eqb_refl.
Qed.

Lemma count_symbol_replace_other s s' to expr stamp t :
  s' <> s ->
  count_symbol s' (sql_replace s to expr stamp t) = count_symbol s' t.
Proof.
  intros Hne. unfold sql_replace.
  rewrite count_symbol_app, count_symbol_kept by exact Hne.
  unfold count_symbol, has_symbol. simpl.
  destruct (String.eqb_spec s s'); [congruence|]. simpl. lia.
Qed.

Lemma sql_replace_unique s to expr stamp t :
  unique_symbols t -> unique_symbols (sql_replace s to expr stamp t).
Proof.
  intros U s'. destruct (string_dec s' s) as [->|Hne].
  - rewrite count_symbol_replace_same. lia.
  - rewrite count_symbol_replace_other by exact Hne. apply U.
Qed.

Lemma find_symbol_replace s to expr stamp t :
  find_symbol s (sql_replace s to expr stamp t) = Some (mkRow s to expr None stamp).
Proof.
  unfold find_symbol, sql_replace.
  induction t as [|r t IH]; simpl.
  - unfold has_symbol. simpl. now rewrite String.eqb_refl.
  - destruct (has_symbol s r) eqn:E; simpl; [exact IH|].
    rewrite E. exact IH.
Qed.

Lemma sql_update_keeps_symbols s stamp t :
  map symbol (sql_update_last_run s stamp t) = map symbol t.
Proof.
  unfold sql_update_last_run. rewrite map_map. apply map_ext.
  intros r. now destruct (has_symbol s r).
Qed.

Lemma sql_update_keeps_created s stamp t :
  map created_at (sql_update_last_run s stamp t) = map created_at t.
Proof.
  unfold sql_update_last_run. rewrite map_map. apply map_ext.
  intros r. now destruct (has_symbol s r).
Qed.

Lemma sql_update_sets_last_run s stamp t r :
  In r (sql_update_last_run s stamp t) -> symbol r = s -> last_run r = Some stamp.
Proof.
  unfold sql_update_last_run. rewrite in_map_iff.
  intros (r0 & Hr & _) Hs. destruct (has_symbol s r0) eqn:E.
  - now subst r.
  - subst r. apply has_symbol_false in E. contradiction.
Qed.

(** ** One reminder *)

Section ProgramFacts.

Variable cron : Croniter.
Variable env : Env.

Ltac run :=
  cbv beta iota zeta delta
    [guarded_reminder process_reminder try_except bind send_price_reminder
     update_reminder_last_run datetime_now get_crypto_price
     bot_send_message emit ret price_message];
  simpl.

Lemma is_due_runs expr last now : is_due cron expr last now <> OutOfFuel.
Proof.
  unfold is_due. destruct (is_valid cron expr); [|discriminate].
  destruct last.
  - destruct (get_prev cron expr now); discriminate.
  - destruct (get_next cron expr now); discriminate.
Qed.

(** A reminder that has fired before is due whenever its schedule
    evaluates: the previous match is in the past, so the difference is
    positive and passes the test against -60 seconds. *)
Lemma fired_before_is_due expr stamp now p :
  prev_is_earlier cron ->
  is_valid cron expr = true ->
  get_prev cron expr now = Some p ->
  is_due cron expr (Some stamp) now = Ok true.
Proof.
  intros Hlt Hv Hp. unfold is_due. rewrite Hv, Hp.
  apply Hlt in Hp. f_equal. apply Z.gtb_lt. unfold minute_us. lia.
Qed.

Lemma never_fired_is_due expr now n :
  is_valid cron expr = true ->
  get_next cron expr now = Some n ->
  is_due cron expr None now = Ok true.
Proof. intros Hv Hn. unfold is_due. now rewrite Hv, Hn. Qed.

Lemma guarded_due now s to expr last w :
  is_due cron expr last now = Ok true ->
  guarded_reminder cron env now (s, to, expr, last) w = (Ok tt, fired env s to w).
Proof.
  intros Hd. unfold fired. run. rewrite Hd.
  destruct (fetch env (tick w) s) as [p|]; simpl;
    (destruct (notify env (S (tick w)) to _); simpl;
     [destruct (store w); simpl|]);
    repeat rewrite <- app_assoc; reflexivity.
Qed.

Lemma guarded_not_due now s to expr last w :
  is_due cron expr last now = Ok false ->
  guarded_reminder cron env now (s, to, expr, last) w = (Ok tt, w).
Proof. intros Hd. run. now rewrite Hd. Qed.

Lemma guarded_raise now s to expr last w e :
  is_due cron expr last now = Raise e ->
  guarded_reminder cron env now (s, to, expr, last) w =
  (Ok tt, mkWorld (store w) (tick w) (trace w ++ [EvLog s e])).
Proof. intros Hd. run. now rewrite Hd. Qed.

Lemma fired_trace s to w :
  exists tail,
    trace (fired env s to w) =
    trace w ++ EvPrice s (fetch env (tick w) s)
            :: EvSend to (price_message s (fetch env (tick w) s))
                      (notify env (S (tick w)) to
                              (price_message s (fetch env (tick w) s)))
            :: tail.
Proof.
  unfold fired.
  destruct (notify env (S (tick w)) to _); [destruct (store w)|];
    simpl; eexists; reflexivity.
Qed.

Lemma step_ok_refl w : step_ok w w.
Proof.
  split.
  - exists []. now rewrite app_nil_r.
  - intros t Ht. exists t. auto.
Qed.

Lemma step_ok_trans w1 w2 w3 : step_ok w1 w2 -> step_ok w2 w3 -> step_ok w1 w3.
Proof.
  intros [[l1 H1] S1] [[l2 H2] S2]. split.
  - exists (l1 ++ l2). now rewrite H2, H1, app_assoc.
  - intros t Ht. destruct (S1 t Ht) as (t1 & E1 & A1 & B1).
    destruct (S2 t1 E1) as (t2 & E2 & A2 & B2).
    exists t2. repeat split; congruence.
Qed.

Lemma fired_step s to w : step_ok w (fired env s to w).
Proof.
  split.
  - destruct (fired_trace s to w) as [tail H]. eexists. exact H.
  - intros t Ht. unfold fired. rewrite Ht.
    destruct (notify env (S (tick w)) to _); simpl.
    + eexists. split; [reflexivity|].
      now rewrite sql_update_keeps_symbols, sql_update_keeps_created.
    + exists t. auto.
Qed.

Lemma guarded_returns now r w :
  exists w', guarded_reminder cron env now r w = (Ok tt, w') /\ step_ok w w'.
Proof.
  destruct r as [[[s to] expr] last].
  destruct (is_due cron expr last now) as [[|] | e |] eqn:Hd.
  - eexists. split; [apply guarded_due; exact Hd|apply fired_step].
  - eexists. split; [apply guarded_not_due; exact Hd|apply step_ok_refl].
  - eexists. split; [apply guarded_raise; exact Hd|]. split; simpl.
    + eexists. reflexivity.
    + intros t Ht. exists t. auto.
  - now apply is_due_runs in Hd.
Qed.

End ProgramFacts.

(** ** One cycle *)

Section CycleFacts.

Variable cron : Croniter.
Variable env : Env.

Lemma loop_returns now rs w :
  exists w',
    for_each rs (guarded_reminder cron env now) w = (Ok tt, w')
    /\ step_ok w w'.
Proof.
  revert w. induction rs as [|r rs IH]; intros w; simpl.
  - exists w. split; [reflexivity|apply step_ok_refl].
  - destruct (guarded_returns cron env now r w) as (w1 & E1 & S1).
    destruct (IH w1) as (w' & E' & S').
    exists w'. split.
    + unfold bind. now rewrite E1.
    + eapply step_ok_trans; eassumption.
Qed.

(** Every reminder of the snapshot gets its turn: the loop reaches it in
    some world [w1], whatever the reminders before it did, runs its
    guarded body there, and goes on to the rest. *)
Lemma loop_visits now l1 r l2 w :
  exists w1 w2 w',
    step_ok w w1
    /\ guarded_reminder cron env now r w1 = (Ok tt, w2)
    /\ step_ok w2 w'
    /\ for_each (l1 ++ r :: l2) (guarded_reminder cron env now) w = (Ok tt, w').
Proof.
  revert w. induction l1 as [|a l1 IH]; intros w; simpl.
  - destruct (guarded_returns cron env now r w) as (w2 & E2 & _).
    destruct (loop_returns now l2 w2) as (w' & E' & S').
    exists w, w2, w'. split; [apply step_ok_refl|].
    split; [exact E2|]. split; [exact S'|].
    unfold bind. now rewrite E2.
  - destruct (guarded_returns cron env now a w) as (wa & Ea & Sa).
    destruct (IH wa) as (w1 & w2 & w' & S1 & E2 & S2 & E').
    exists w1, w2, w'. split; [eapply step_ok_trans; eassumption|].
    split; [exact E2|]. split; [exact S2|].
    unfold bind. now rewrite Ea.
Qed.

Lemma check_cycle_unfold w t :
  store w = Some t ->
  check_cycle cron env w =
  for_each (map select_reminder t)
           (guarded_reminder cron env (clock env (tick w)))
           (mkWorld (Some t) (S (tick w)) (trace w)).
Proof.
  intros Ht. unfold check_cycle, bind, datetime_now, get_all_reminders.
  simpl. now rewrite Ht.
Qed.

Lemma cycle_visits w t r :
  store w = Some t -> In r t ->
  exists w1 w2 w' l1 l2,
    trace w1 = trace w ++ l1
    /\ guarded_reminder cron env (clock env (tick w)) (select_reminder r) w1
       = (Ok tt, w2)
    /\ trace w' = trace w2 ++ l2
    /\ check_cycle cron env w = (Ok tt, w').
Proof.
  intros Ht Hin. apply in_split in Hin. destruct Hin as (t1 & t2 & ->).
  rewrite (check_cycle_unfold w _ Ht), map_app. simpl.
  destruct (loop_visits (clock env (tick w)) (map select_reminder t1)
              (select_reminder r) (map select_reminder t2)
              (mkWorld (Some (t1 ++ r :: t2)) (S (tick w)) (trace w)))
    as (w1 & w2 & w' & [[l1 H1] _] & E2 & [[l2 H2] _] & E').
  exists w1, w2, w', l1, l2. simpl in H1. auto.
Qed.

Lemma cycle_keeps_rows w t :
  store w = Some t ->
  exists w' t',
    check_cycle cron env w = (Ok tt, w')
    /\ store w' = Some t'
    /\ map symbol t' = map symbol t
    /\ map created_at t' = map created_at t.
Proof.
  intros Ht. rewrite (check_cycle_unfold w _ Ht).
  destruct (loop_returns (clock env (tick w)) (map select_reminder t)
              (mkWorld (Some t) (S (tick w)) (trace w)))
    as (w' & E' & [_ St]).
  destruct (St t eq_refl) as (t' & Hs & Hk & Hc).
  exists w', t'. auto.
Qed.

End CycleFacts.

(** ** Registration *)

Section RegistrationFacts.

Variable upper : string -> string.
Variable cron : Croniter.
Variable env : Env.

Lemma bot_reply_to_world message m w :
  snd (bot_reply_to env message m w) =
  mkWorld (store w) (S (tick w))
    (trace w ++ [EvReply (chat message) m (notify env (tick w) (chat message) m)]).
Proof. reflexivity. Qed.

Lemma set_reminder_wrong_count message w :
  List.length (args_of message) <> 3%nat ->
  set_reminder upper cron env message w =
  bot_reply_to env message
    (UsageError (ValueError "Invalid number of arguments")) w.
Proof.
  intros Hn. unfold set_reminder, try_except, args_of in *.
  destruct (Nat.eqb_spec (List.length (Text.split_ws 2 (text message))) 3);
    [contradiction|reflexivity].
Qed.

Lemma set_reminder_bad_cron message w :
  List.length (args_of message) = 3%nat ->
  is_valid cron (expr_of message) = false ->
  set_reminder upper cron env message w =
  bot_reply_to env message
    (UsageError (ValueError "Invalid cron expression")) w.
Proof.
  intros Hn Hv. unfold set_reminder, try_except, expr_of, args_of in *.
  rewrite Hn, Hv. reflexivity.
Qed.

Lemma set_reminder_accepted message w t :
  List.length (args_of message) = 3%nat ->
  is_valid cron (expr_of message) = true ->
  store w = Some t ->
  store (snd (set_reminder upper cron env message w)) =
  Some (sql_replace (symbol_of upper message) (chat message) (expr_of message)
                    (clock env (tick w)) t).
Proof.
  intros Hn Hv Ht.
  unfold set_reminder, try_except, symbol_of, expr_of, args_of in *.
  rewrite Hn, Hv.
  cbv beta iota zeta delta
    [bind replace_reminder bot_reply_to get_crypto_price negb Nat.eqb].
  rewrite Ht. simpl.
  repeat match goal with
         | |- context [notify env ?k ?c ?m] =>
             destruct (notify env k c m); simpl
         | |- context [fetch env ?k ?s] => destruct (fetch env k s); simpl
         end; reflexivity.
Qed.

End RegistrationFacts.

(** * The claims *)

(** C1 (the code at the inputs of the claim).  A reminder on
    [*/5 * * * *] that fired at the matching instant T is decided due and
    fired again by a cycle one minute after T, and by a cycle four minutes
    after T: the reference instant of a fired reminder is the previous
    match, which lies in the past, so the test [> -60] always passes
    (lemma [fired_before_is_due]).  The claim, and the test suite, expect
    no firing at these two instants. *)
Theorem fires_past_the_window :
  let fire t := [EvPrice "BTC" (Some 50000);
                 EvSend Scenario.TEST_CHAT_ID (PriceAlert "BTC" 50000) true;
                 EvUpdate "BTC" t] in
  let at_ t := trace (snd (Scenario.cycle (Scenario.frozen t (Some 50000) true)
                             (Scenario.world_of [Scenario.btc (Some Scenario.T)]))) in
  is_due EveryMinutes.croniter "*/5 * * * *" (Some Scenario.T)
         (Scenario.T + minute_us) = Ok true
  /\ at_ (Scenario.T + minute_us) = fire (Scenario.T + minute_us)
  /\ at_ (Scenario.T + 4 * minute_us) = fire (Scenario.T + 4 * minute_us).
Proof. vm_compute. repeat split; reflexivity. Qed.

(** C2 (amended).  For a reminder decided due, the events of its turn are,
    in this order: the price fetch, the call of the notifier with the
    success or the failure text, and only then, when that call returned,
    the write of [last_run]; the value written is the clock read at the
    write.  When the call of the notifier raises there is no write.  The
    write never comes before the delivery. *)
Theorem due_reminder_order cron env now s to expr last w :
  is_due cron expr last now = Ok true ->
  let quote := fetch env (tick w) s in
  let m := price_message s quote in
  let sent := notify env (S (tick w)) to m in
  let tail :=
    if sent then
      match store w with
      | Some _ => [EvUpdate s (clock env (S (S (tick w))))]
      | None => [EvLog s OperationalError]
      end
    else [EvLog s ApiException] in
  trace (snd (guarded_reminder cron env now (s, to, expr, last) w))
  = trace w ++ EvPrice s quote :: EvSend to m sent :: tail
  /\ write_precedes_delivery (EvPrice s quote :: EvSend to m sent :: tail) = false.
Proof.
  intros Hd. cbv zeta. rewrite (guarded_due cron env now s to expr last w Hd).
  unfold fired. simpl.
  destruct (notify env (S (tick w)) to _); [destruct (store w)|];
    split; reflexivity.
Qed.

Lemma due_reminder_order_witness :
  is_due EveryMinutes.croniter "*/5 * * * *" None Scenario.T = Ok true
  /\ trace (snd (guarded_reminder EveryMinutes.croniter
                   (Scenario.frozen Scenario.T None true) Scenario.T
                   ("BTC"%string, 5, "*/5 * * * *"%string, None)
                   (Scenario.world_of [Scenario.btc None])))
     = [EvPrice "BTC" None; EvSend 5 (PriceError "BTC") true;
        EvUpdate "BTC" Scenario.T].
Proof.
  split; [reflexivity|].
  exact (proj1 (due_reminder_order EveryMinutes.croniter
                  (Scenario.frozen Scenario.T None true) Scenario.T
                  "BTC" 5 "*/5 * * * *" None
                  (Scenario.world_of [Scenario.btc None]) eq_refl)).
Defined.

(** C2 (the claim as stated fails).  In a cycle that starts at T over the
    table of the test scenario, the reminder is due, the notifier is called
    before [last_run] is written, and what is written is the clock at the
    write, three seconds after T. *)
Lemma write_follows_delivery :
  let e := Scenario.running Scenario.T (Some 50000) true in
  let w := Scenario.world_of [Scenario.btc None] in
  let w' := snd (Scenario.cycle e w) in
  clock e (tick w) = Scenario.T
  /\ trace w' = [EvPrice "BTC" (Some 50000);
                 EvSend Scenario.TEST_CHAT_ID (PriceAlert "BTC" 50000) true;
                 EvUpdate "BTC" (Scenario.T + 3000000)]
  /\ write_precedes_delivery (trace w') = false.
Proof. vm_compute. repeat split; reflexivity. Qed.

(** C3 (amended).  A reminder that never fired, with a schedule that the
    evaluator accepts and finds a next date for, is decided due and fired
    by a cycle at any instant: whatever else the table holds, the cycle
    fetches its price and calls the notifier for its chat.  How the
    schedule lies with respect to the instant of the cycle does not
    matter. *)
Theorem first_run_fires cron env w t r n :
  store w = Some t ->
  In r t ->
  last_run r = None ->
  is_valid cron (cron_expr r) = true ->
  get_next cron (cron_expr r) (clock env (tick w)) = Some n ->
  is_due cron (cron_expr r) (last_run r) (clock env (tick w)) = Ok true
  /\ exists before quote sent after,
       check_cycle cron env w
       = (Ok tt, snd (check_cycle cron env w))
       /\ trace (snd (check_cycle cron env w))
          = trace w ++ before
            ++ EvPrice (symbol r) quote
               :: EvSend (chat_id r) (price_message (symbol r) quote) sent
               :: after.
Proof.
  intros Ht Hin Hl Hv Hn.
  assert (Hd : is_due cron (cron_expr r) (last_run r) (clock env (tick w))
               = Ok true).
  { rewrite Hl. eapply never_fired_is_due; eassumption. }
  split; [exact Hd|].
  destruct (cycle_visits cron env w t r Ht Hin)
    as (w1 & w2 & w' & l1 & l2 & H1 & E2 & H2 & E').
  unfold select_reminder in E2. rewrite (guarded_due _ _ _ _ _ _ _ _ Hd) in E2.
  injection E2 as <-.
  destruct (fired_trace env (symbol r) (chat_id r) w1) as [tail Hf].
  exists l1, (fetch env (tick w1) (symbol r)),
    (notify env (S (tick w1)) (chat_id r)
       (price_message (symbol r) (fetch env (tick w1) (symbol r)))),
    (tail ++ l2).
  rewrite E'. simpl. split; [reflexivity|].
  rewrite H2, Hf, H1. repeat rewrite <- app_assoc. reflexivity.
Qed.

Lemma first_run_fires_witness :
  exists before quote sent after,
    trace (snd (Scenario.cycle
                  (Scenario.frozen (Scenario.T + 137000000) (Some 50000) true)
                  (Scenario.world_of [Scenario.broken; Scenario.btc None])))
    = before ++ EvPrice "BTC" quote
        :: EvSend Scenario.TEST_CHAT_ID (price_message "BTC" quote) sent
        :: after.
Proof.
  destruct (first_run_fires EveryMinutes.croniter
              (Scenario.frozen (Scenario.T + 137000000) (Some 50000) true)
              (Scenario.world_of [Scenario.broken; Scenario.btc None])
              [Scenario.broken; Scenario.btc None] (Scenario.btc None)
              (Scenario.T + 300000000)
              eq_refl (or_intror (or_introl eq_refl)) eq_refl eq_refl eq_refl)
    as (_ & before & quote & sent & after & _ & H).
  exists before, quote, sent, after. exact H.
Defined.

(** C3 (the claim as stated fails).  A reminder that never fired is not
    fired by the cycle when its schedule does not parse, and neither when
    the evaluator accepts the schedule and finds no next date for it: the
    croniter object is built and asked for the next date before the test
    of [last_run], so the error is logged and the reminder is skipped. *)
Lemma never_fired_can_be_skipped :
  last_run Scenario.broken = None
  /\ Scenario.cycle (Scenario.frozen Scenario.T (Some 50000) true)
       (Scenario.world_of [Scenario.broken])
     = (Ok tt, mkWorld (Some [Scenario.broken]) 1
                       [EvLog "ETH" CroniterBadCronError])
  /\ last_run Scenario.february_30 = None
  /\ is_valid Scenario.with_february_30 (cron_expr Scenario.february_30) = true
  /\ check_cycle Scenario.with_february_30
       (Scenario.frozen Scenario.T (Some 50000) true)
       (Scenario.world_of [Scenario.february_30])
     = (Ok tt, mkWorld (Some [Scenario.february_30]) 1
                       [EvLog "SOL" CroniterBadDateError]).
Proof. vm_compute. repeat split; reflexivity. Qed.

(** C4 (amended).  For a reminder decided due whose price fetch fails, the
    turn calls the notifier with the error text for the reminder's chat;
    when that call returns, [last_run] of the reminder's row is set to the
    clock read at the write; when that call raises, nothing is written and
    the error is logged.  In both cases the turn ends normally. *)
Theorem price_failure_handling cron env now s to expr last w t :
  is_due cron expr last now = Ok true ->
  fetch env (tick w) s = None ->
  store w = Some t ->
  let sent := notify env (S (tick w)) to (PriceError s) in
  let stamp := clock env (S (S (tick w))) in
  let w' := snd (guarded_reminder cron env now (s, to, expr, last) w) in
  fst (guarded_reminder cron env now (s, to, expr, last) w) = Ok tt
  /\ trace w' = trace w ++ [EvPrice s None; EvSend to (PriceError s) sent;
                            if sent then EvUpdate s stamp
                            else EvLog s ApiException]
  /\ store w' = Some (if sent then sql_update_last_run s stamp t else t)
  /\ (sent = true ->
      forall r, In r t -> symbol r = s ->
      In (mkRow s (chat_id r) (cron_expr r) (Some stamp) (created_at r))
         (sql_update_last_run s stamp t)).
Proof.
  intros Hd Hq Ht. cbv zeta.
  rewrite (guarded_due cron env now s to expr last w Hd).
  unfold fired. rewrite Hq, Ht. simpl.
  split; [reflexivity|].
  destruct (notify env (S (tick w)) to (PriceError s)); simpl.
  - split; [reflexivity|]. split; [reflexivity|].
    intros _ r Hin Hs. unfold sql_update_last_run. apply in_map_iff.
    exists r. split; [|exact Hin].
    apply has_symbol_true in Hs. rewrite Hs.
    apply has_symbol_true in Hs. now rewrite Hs.
  - split; [reflexivity|]. split; [reflexivity|]. discriminate.
Qed.

Lemma price_failure_handling_witness :
  store (snd (guarded_reminder EveryMinutes.croniter
                (Scenario.frozen Scenario.T None true) Scenario.T
                ("BTC"%string, 5, "*/5 * * * *"%string, None)
                (Scenario.world_of [Scenario.btc None])))
  = Some [Scenario.btc (Some Scenario.T)].
Proof.
  exact (proj1 (proj2 (proj2
    (price_failure_handling EveryMinutes.croniter
       (Scenario.frozen Scenario.T None true) Scenario.T
       "BTC" 5 "*/5 * * * *" None
       (Scenario.world_of [Scenario.btc None]) [Scenario.btc None]
       eq_refl eq_refl eq_refl)))).
Defined.

(** C4 (the claim as stated fails).  With the price API down and the
    notifier raising, the cycle leaves [last_run] unset: the write comes
    after the delivery and is skipped with it.  And with the notifier
    working, a cycle that starts at T writes the clock of three seconds
    later, and the next cycle, 64 seconds after T, sends the error text
    again for the same scheduled instant. *)
Lemma price_failure_not_settled :
  store (snd (Scenario.cycle (Scenario.frozen Scenario.T None false)
                (Scenario.world_of [Scenario.btc None])))
  = Some [Scenario.btc None]
  /\ trace (snd ((Scenario.cycle (Scenario.two_cycles Scenario.T None) ;;
                  Scenario.cycle (Scenario.two_cycles Scenario.T None))%prog
                 (Scenario.world_of [Scenario.btc None])))
     = [EvPrice "BTC" None;
        EvSend Scenario.TEST_CHAT_ID (PriceError "BTC") true;
        EvUpdate "BTC" (Scenario.T + 3000000);
        EvPrice "BTC" None;
        EvSend Scenario.TEST_CHAT_ID (PriceError "BTC") true;
        EvUpdate "BTC" (Scenario.T + minute_us + 7000000)].
Proof. vm_compute. split; reflexivity. Qed.

(** C5.  A cycle over an existing table always ends normally, and every
    reminder of the table is evaluated in it, whatever the other reminders
    do: one that is due has its price fetched, and one whose evaluation
    raises has its error logged. *)
Theorem cycle_isolation cron env w t :
  store w = Some t ->
  fst (check_cycle cron env w) = Ok tt
  /\ forall r, In r t ->
       match is_due cron (cron_expr r) (last_run r) (clock env (tick w)) with
       | Ok true =>
           exists before quote after,
             trace (snd (check_cycle cron env w))
             = trace w ++ before ++ EvPrice (symbol r) quote :: after
       | Ok false => True
       | Raise e =>
           exists before after,
             trace (snd (check_cycle cron env w))
             = trace w ++ before ++ EvLog (symbol r) e :: after
       | OutOfFuel => False
       end.
Proof.
  intros Ht. split.
  - destruct (cycle_keeps_rows cron env w t Ht) as (w' & t' & E & _).
    now rewrite E.
  - intros r Hin.
    destruct (cycle_visits cron env w t r Ht Hin)
      as (w1 & w2 & w' & l1 & l2 & H1 & E2 & H2 & E').
    unfold select_reminder in E2. rewrite E'. simpl.
    destruct (is_due cron (cron_expr r) (last_run r) (clock env (tick w)))
      as [[|] | e |] eqn:Hd.
    + rewrite (guarded_due _ _ _ _ _ _ _ _ Hd) in E2. injection E2 as <-.
      destruct (fired_trace env (symbol r) (chat_id r) w1) as [tail Hf].
      exists l1, (fetch env (tick w1) (symbol r)).
      eexists. rewrite H2, Hf, H1. repeat rewrite <- app_assoc. simpl.
      reflexivity.
    + exact I.
    + rewrite (guarded_raise _ _ _ _ _ _ _ _ _ Hd) in E2. injection E2 as <-.
      exists l1, l2. rewrite H2. simpl. rewrite H1.
      repeat rewrite <- app_assoc. reflexivity.
    + now apply is_due_runs in Hd.
Qed.

Lemma cycle_isolation_witness :
  fst (Scenario.cycle (Scenario.frozen Scenario.T (Some 50000) false)
         (Scenario.world_of [Scenario.broken; Scenario.btc None])) = Ok tt
  /\ exists before quote after,
       trace (snd (Scenario.cycle (Scenario.frozen Scenario.T (Some 50000) false)
                     (Scenario.world_of [Scenario.broken; Scenario.btc None])))
       = before ++ EvPrice "BTC" quote :: after.
Proof.
  destruct (cycle_isolation EveryMinutes.croniter
              (Scenario.frozen Scenario.T (Some 50000) false)
              (Scenario.world_of [Scenario.broken; Scenario.btc None])
              [Scenario.broken; Scenario.btc None] eq_refl) as [Hok Hall].
  split; [exact Hok|].
  exact (Hall (Scenario.btc None) (or_intror (or_introl eq_refl))).
Defined.

(** C6 (the code against the claim).  [check_reminders] has no single-shot
    mode: however many turns of its loop are run, it has not returned, and
    the call of the test suite, with the keyword [single_check], raises a
    [TypeError] before any cycle is run. *)
Theorem check_reminders_never_returns cron env fuel w :
  (forall u, fst (check_reminders cron env fuel w) <> Ok u)
  /\ call_check_reminders cron env ["single_check"%string] fuel w
     = (Raise (TypeError "single_check"), w).
Proof.
  split; [|reflexivity].
  revert w. induction fuel as [|n IH]; intros w u; simpl; [discriminate|].
  unfold bind.
  destruct (check_cycle cron env w) as [[[]|e|] w1]; simpl; try discriminate.
  apply IH.
Qed.

(** C7.  After a registration the table still has at most one row per
    symbol, and when the registration is accepted the symbol registered has
    exactly one row, which carries the chat and the schedule of the
    request. *)
Theorem upsert_uniqueness upper cron env message w t :
  store w = Some t ->
  unique_symbols t ->
  exists t',
    store (snd (set_reminder upper cron env message w)) = Some t'
    /\ unique_symbols t'
    /\ (List.length (args_of message) = 3%nat ->
        is_valid cron (expr_of message) = true ->
        count_symbol (symbol_of upper message) t' = 1%nat
        /\ exists r, find_symbol (symbol_of upper message) t' = Some r
                     /\ symbol r = symbol_of upper message
                     /\ chat_id r = chat message
                     /\ cron_expr r = expr_of message).
Proof.
  intros Ht U.
  destruct (Nat.eq_dec (List.length (args_of message)) 3) as [Hn|Hn].
  - destruct (is_valid cron (expr_of message)) eqn:Hv.
    + eexists. split; [apply set_reminder_accepted; eassumption|].
      split; [now apply sql_replace_unique|].
      intros _ _. split; [apply count_symbol_replace_same|].
      eexists. split; [apply find_symbol_replace|]. simpl. auto.
    + exists t. rewrite (set_reminder_bad_cron upper cron env message w Hn Hv).
      rewrite bot_reply_to_world. simpl.
      split; [exact Ht|]. split; [exact U|]. discriminate.
  - exists t. rewrite (set_reminder_wrong_count upper cron env message w Hn).
    rewrite bot_reply_to_world. simpl.
    split; [exact Ht|]. split; [exact U|]. contradiction.
Qed.

Lemma single_row_unique r : unique_symbols [r].
Proof.
  intros s. unfold count_symbol. simpl.
  destruct (has_symbol s r); simpl; lia.
Qed.

Lemma upsert_uniqueness_witness :
  exists t',
    store (snd (Scenario.register (Scenario.frozen Scenario.T None true)
                  "/setreminder btc */30 * * * *" 42
                  (Scenario.world_of [Scenario.btc (Some Scenario.T)])))
    = Some t'
    /\ unique_symbols t'
    /\ count_symbol "BTC" t' = 1%nat.
Proof.
  destruct (upsert_uniqueness Text.ascii_upper EveryMinutes.croniter
              (Scenario.frozen Scenario.T None true)
              (mkMessage "/setreminder btc */30 * * * *" 42)
              (Scenario.world_of [Scenario.btc (Some Scenario.T)])
              [Scenario.btc (Some Scenario.T)] eq_refl
              (single_row_unique _)) as (t' & Hs & U & Hacc).
  exists t'. split; [exact Hs|]. split; [exact U|].
  exact (proj1 (Hacc eq_refl eq_refl)).
Defined.

(** C8.  A registration request with a wrong number of pieces, or with a
    cron expression the evaluator rejects, leaves the table as it was and
    answers the requesting chat with the reason; any other request, on an
    existing table, stores the row under the second piece of the text as
    [str.upper] gives it.  The pieces are those of [text.split(None, 2)],
    cut at every blank character of Unicode. *)
Theorem registration_validation upper cron env message w :
  let w' := snd (set_reminder upper cron env message w) in
  let rejected reason :=
    store w' = store w
    /\ trace w' = trace w
                  ++ [EvReply (chat message) (UsageError (ValueError reason))
                        (notify env (tick w) (chat message)
                                (UsageError (ValueError reason)))] in
  (List.length (args_of message) <> 3%nat ->
   rejected "Invalid number of arguments"%string)
  /\ (List.length (args_of message) = 3%nat ->
      is_valid cron (expr_of message) = false ->
      rejected "Invalid cron expression"%string)
  /\ (List.length (args_of message) = 3%nat ->
      is_valid cron (expr_of message) = true ->
      forall t, store w = Some t ->
      store w' = Some (sql_replace (upper (nth 1 (args_of message) EmptyString))
                         (chat message) (nth 2 (args_of message) EmptyString)
                         (clock env (tick w)) t)
      /\ exists t',
           store w' = Some t'
           /\ find_symbol (upper (nth 1 (args_of message) EmptyString)) t'
              = Some (mkRow (upper (nth 1 (args_of message) EmptyString))
                            (chat message)
                            (nth 2 (args_of message) EmptyString) None
                            (clock env (tick w)))).
Proof.
  cbv zeta. split; [|split].
  - intros Hn. rewrite (set_reminder_wrong_count upper cron env message w Hn).
    rewrite bot_reply_to_world. simpl. auto.
  - intros Hn Hv. rewrite (set_reminder_bad_cron upper cron env message w Hn Hv).
    rewrite bot_reply_to_world. simpl. auto.
  - intros Hn Hv t Ht.
    pose proof (set_reminder_accepted upper cron env message w t Hn Hv Ht) as Hs.
    split; [exact Hs|].
    eexists. split; [exact Hs|]. apply find_symbol_replace.
Qed.

Lemma registration_validation_witness :
  store (snd (Scenario.register (Scenario.frozen Scenario.T None true)
                "/setreminder btc every day" 42
                (Scenario.world_of [Scenario.btc None])))
  = Some [Scenario.btc None]
  /\ store (snd (Scenario.register (Scenario.frozen Scenario.T None true)
                   "/setreminder eth */30 * * * *" 42
                   (Scenario.world_of [Scenario.btc None])))
     = Some [Scenario.btc None;
             mkRow "ETH" 42 "*/30 * * * *" None Scenario.T]
  /\ store (snd (Scenario.register (Scenario.frozen Scenario.T None true)
                   ("/setreminder" ++ Scenario.nbsp ++ "eth */30 * * * *")
                   42 (Scenario.world_of [Scenario.btc None])))
     = Some [Scenario.btc None;
             mkRow "ETH" 42 "*/30 * * * *" None Scenario.T].
Proof.
  split; [|split].
  - exact (proj1 (proj1 (proj2
      (registration_validation Text.ascii_upper EveryMinutes.croniter
         (Scenario.frozen Scenario.T None true)
         (mkMessage "/setreminder btc every day" 42)
         (Scenario.world_of [Scenario.btc None]))) eq_refl eq_refl)).
  - exact (proj1 (proj2 (proj2
      (registration_validation Text.ascii_upper EveryMinutes.croniter
         (Scenario.frozen Scenario.T None true)
         (mkMessage "/setreminder eth */30 * * * *" 42)
         (Scenario.world_of [Scenario.btc None]))) eq_refl eq_refl
      [Scenario.btc None] eq_refl)).
  - exact (proj1 (proj2 (proj2
      (registration_validation Text.ascii_upper EveryMinutes.croniter
         (Scenario.frozen Scenario.T None true)
         (mkMessage ("/setreminder" ++ Scenario.nbsp ++ "eth */30 * * * *") 42)
         (Scenario.world_of [Scenario.btc None]))) eq_refl eq_refl
      [Scenario.btc None] eq_refl)).
Defined.

(** C9 (amended).  [created_at] of a row is set when the row is inserted
    and is left alone by the update of [last_run] and by a whole check
    cycle.  A registration inserts a new row: the row of the symbol
    registered gets the time of the registration as [created_at] and no
    [last_run], while the rows of the other symbols stay as they are. *)
Theorem created_at_lifecycle upper cron env w t :
  store w = Some t ->
  (forall s, exists t',
      store (snd (update_reminder_last_run env s w)) = Some t'
      /\ map symbol t' = map symbol t
      /\ map created_at t' = map created_at t)
  /\ (exists t',
        store (snd (check_cycle cron env w)) = Some t'
        /\ map symbol t' = map symbol t
        /\ map created_at t' = map created_at t)
  /\ (forall message,
        List.length (args_of message) = 3%nat ->
        is_valid cron (expr_of message) = true ->
        exists t',
          store (snd (set_reminder upper cron env message w)) = Some t'
          /\ find_symbol (symbol_of upper message) t'
             = Some (mkRow (symbol_of upper message) (chat message)
                           (expr_of message) None (clock env (tick w)))
          /\ forall r, symbol r <> symbol_of upper message -> (In r t' <-> In r t)).
Proof.
  intros Ht. split; [|split].
  - intros s. unfold update_reminder_last_run, bind, datetime_now. simpl.
    rewrite Ht. simpl. eexists. split; [reflexivity|].
    now rewrite sql_update_keeps_symbols, sql_update_keeps_created.
  - destruct (cycle_keeps_rows cron env w t Ht) as (w' & t' & E & Hs & Hk & Hc).
    exists t'. rewrite E. auto.
  - intros message Hn Hv. eexists.
    split; [apply set_reminder_accepted; eassumption|].
    split; [apply find_symbol_replace|].
    intros r Hr. unfold sql_replace. rewrite in_app_iff, filter_In. simpl.
    split.
    + intros [[H _]|[H|[]]]; [exact H|]. subst r. simpl in Hr. contradiction.
    + intros H. left. split; [exact H|].
      apply has_symbol_false in Hr. now rewrite Hr.
Qed.

Lemma created_at_lifecycle_witness :
  exists t',
    store (snd (Scenario.cycle (Scenario.frozen (Scenario.T + minute_us) None true)
                  (Scenario.world_of [Scenario.btc None])))
    = Some t'
    /\ map created_at t' = [Scenario.T].
Proof.
  destruct (proj1 (proj2
    (created_at_lifecycle Text.ascii_upper EveryMinutes.croniter
       (Scenario.frozen (Scenario.T + minute_us) None true)
       (Scenario.world_of [Scenario.btc None]) [Scenario.btc None] eq_refl)))
    as (t' & Hs & _ & Hc).
  exists t'. split; [exact Hs|exact Hc].
Defined.

(** C9 (the claim as stated fails).  Registering again a symbol that has a
    row, three minutes after the row was created, leaves a row whose
    [created_at] is the time of the second registration. *)
Lemma reregistration_resets_created_at :
  let w' := snd (Scenario.register
                   (Scenario.frozen (Scenario.T + 3 * minute_us) None true)
                   "/setreminder btc */5 * * * *" Scenario.TEST_CHAT_ID
                   (Scenario.world_of [Scenario.btc (Some Scenario.T)])) in
  store w' = Some [mkRow "BTC" Scenario.TEST_CHAT_ID "*/5 * * * *" None
                         (Scenario.T + 3 * minute_us)]
  /\ map created_at [Scenario.btc (Some Scenario.T)] = [Scenario.T]
  /\ Scenario.T + 3 * minute_us <> Scenario.T.
Proof. vm_compute. repeat split; try reflexivity. discriminate. Qed.

(** C10.  [init_db] drops the table and creates it anew: whatever the store
    held, it holds an empty table afterwards, and the next read of the
    reminders finds none. *)
Theorem init_db_empties_store w :
  init_db w = (Ok tt, mkWorld (Some []) (tick w) (trace w))
  /\ fst (get_all_reminders (snd (init_db w))) = Ok [].
Proof. split; reflexivity. Qed.

(** * Further properties *)

(** ** Cutting the text of a message *)

Ltac split_cases H :=
  repeat match type of H with
         | context [if ?b then _ else _] => destruct b eqn:?
         | context [match ?x with _ => _ end] => destruct x eqn:?
         end;
  try discriminate.

Lemma head_char_shorter s cp r :
  Text.head_char s = Some (cp, r) -> (String.length r < String.length s)%nat.
Proof.
  intros H. unfold Text.head_char in H. split_cases H;
    injection H as _ <-; simpl; lia.
Qed.

Lemma head_char_app p q cp r :
  Text.head_char p = Some (cp, r) ->
  Text.head_char (p ++ q) = Some (cp, (r ++ q)%string).
Proof.
  intros H. unfold Text.head_char in *. split_cases H;
    injection H as <- <-; simpl;
    repeat match goal with
           | E : _ = _ |- _ => rewrite E
           end; reflexivity.
Qed.

Lemma after_blank_shorter s r :
  Text.after_blank s = Some r -> (String.length r < String.length s)%nat.
Proof.
  unfold Text.after_blank.
  destruct (Text.head_char s) as [[cp rest]|] eqn:E; [|discriminate].
  destruct (Text.isspace cp); [|discriminate].
  intros [= <-]. eapply head_char_shorter; eassumption.
Qed.

Lemma after_blank_app p q r :
  Text.after_blank p = Some r ->
  Text.after_blank (p ++ q) = Some (r ++ q)%string.
Proof.
  unfold Text.after_blank.
  destruct (Text.head_char p) as [[cp rest]|] eqn:E; [|discriminate].
  rewrite (head_char_app p q cp rest E).
  destruct (Text.isspace cp); [|discriminate]. now intros [= <-].
Qed.

Lemma skip_blanks_fuel n m s :
  (String.length s <= n)%nat -> (String.length s <= m)%nat ->
  Text.skip_blanks n s = Text.skip_blanks m s.
Proof.
  revert m s. induction n as [|k IH]; intros m s Hn Hm.
  - destruct s; [|simpl in Hn; lia]. destruct m; reflexivity.
  - destruct m as [|j].
    + destruct s; [reflexivity|simpl in Hm; lia].
    + simpl. destruct (Text.after_blank s) as [r|] eqn:E; [|reflexivity].
      apply after_blank_shorter in E. apply IH; lia.
Qed.

Lemma skip_ws_eq s :
  Text.skip_ws s =
  match Text.after_blank s with
  | Some r => Text.skip_ws r
  | None => s
  end.
Proof.
  unfold Text.skip_ws. destruct s as [|a t]; [reflexivity|].
  change (String.length (String a t)) with (S (String.length t)).
  cbn [Text.skip_blanks].
  destruct (Text.after_blank (String a t)) as [r|] eqn:E; [|reflexivity].
  apply after_blank_shorter in E. simpl in E. apply skip_blanks_fuel; lia.
Qed.

Lemma skip_blanks_head n s c t :
  (String.length s <= n)%nat ->
  Text.skip_blanks n s = String c t -> Text.after_blank (String c t) = None.
Proof.
  revert s. induction n as [|k IH]; intros s Hn; simpl.
  - intros ->. simpl in Hn. lia.
  - destruct (Text.after_blank s) as [r|] eqn:E.
    + apply IH. apply after_blank_shorter in E. lia.
    + now intros ->.
Qed.

Lemma skip_ws_head s c t :
  Text.skip_ws s = String c t -> Text.after_blank (String c t) = None.
Proof. apply skip_blanks_head. lia. Qed.

Lemma skip_blanks_length n s :
  (String.length (Text.skip_blanks n s) <= String.length s)%nat.
Proof.
  revert s. induction n as [|k IH]; intros s; simpl; [lia|].
  destruct (Text.after_blank s) as [r|] eqn:E; [|lia].
  apply after_blank_shorter in E. specialize (IH r). lia.
Qed.

Lemma skip_ws_length s :
  (String.length (Text.skip_ws s) <= String.length s)%nat.
Proof. apply skip_blanks_length. Qed.

Lemma take_word_app s w r : Text.take_word s = (w, r) -> s = (w ++ r)%string.
Proof.
  revert w r. induction s as [|a s IH]; intros w r.
  - simpl. now intros [= <- <-].
  - cbn [Text.take_word].
    destruct (Text.after_blank (String a s)).
    + now intros [= <- <-].
    + destruct (Text.take_word s) as [w0 r0]. intros [= <- <-].
      simpl. now rewrite (IH w0 r0 eq_refl).
Qed.

Lemma take_word_length s w r :
  Text.take_word s = (w, r) ->
  String.length s = (String.length w + String.length r)%nat.
Proof.
  intros H. apply take_word_app in H. subst s.
  induction w as [|a w IH]; simpl; [reflexivity|now rewrite IH].
Qed.

Lemma take_word_no_blank s w r :
  Text.take_word s = (w, r) -> Text.no_blank w = true.
Proof.
  revert w r. induction s as [|a s IH]; intros w r.
  - simpl. now intros [= <- _].
  - cbn [Text.take_word].
    destruct (Text.after_blank (String a s)) eqn:E.
    + now intros [= <- _].
    + destruct (Text.take_word s) as [w0 r0] eqn:W. intros [= <- _].
      cbn [Text.no_blank].
      destruct (Text.after_blank (String a w0)) as [x|] eqn:E0.
      * apply (after_blank_app _ r0) in E0. simpl in E0.
        rewrite <- (take_word_app s w0 r0 W) in E0. congruence.
      * apply (IH w0 r0 eq_refl).
Qed.

Lemma take_word_head c t w r :
  Text.after_blank (String c t) = None ->
  Text.take_word (String c t) = (w, r) -> exists w', w = String c w'.
Proof.
  intros E. cbn [Text.take_word]. rewrite E.
  destruct (Text.take_word t) as [w0 r0].
  intros [= <- _]. now exists w0.
Qed.

Lemma split_ws_eq n s :
  Text.split_ws n s =
  match Text.skip_ws s with
  | EmptyString => []
  | String c t =>
      match n with
      | O => [String c t]
      | S k => let (w, r) := Text.take_word (String c t) in
               w :: Text.split_ws k r
      end
  end.
Proof. destruct n; reflexivity. Qed.

(** Every piece is non-empty and does not start with a blank, and the
    pieces cut off before the bound is reached hold no blank at all. *)
Lemma split_ws_piece n s i p :
  nth_error (Text.split_ws n s) i = Some p ->
  (p <> EmptyString /\ Text.after_blank p = None)
  /\ ((i < n)%nat -> Text.no_blank p = true).
Proof.
  revert s i. induction n as [|k IH]; intros s i; rewrite split_ws_eq;
    destruct (Text.skip_ws s) as [|c t] eqn:E;
    try (destruct i; discriminate).
  - apply skip_ws_head in E. destruct i as [|i]; simpl.
    + intros [= <-]. split; [split; [discriminate|exact E]|lia].
    + destruct i; discriminate.
  - apply skip_ws_head in E.
    destruct (Text.take_word (String c t)) as [w r] eqn:W.
    destruct i as [|i]; simpl.
    + intros [= <-]. split.
      * destruct (take_word_head c t w r E W) as [w' ->].
        split; [discriminate|].
        destruct (Text.after_blank (String c w')) as [x|] eqn:E0;
          [|reflexivity].
        apply (after_blank_app _ r) in E0.
        rewrite <- (take_word_app _ _ _ W) in E0. congruence.
      * intros _. eapply take_word_no_blank; eassumption.
    + intros H. destruct (IH r i H) as [H1 H2]. split; [exact H1|].
      intros Hi. apply H2. lia.
Qed.

Lemma split_ws_bound n m s :
  (String.length s <= n)%nat -> (String.length s <= m)%nat ->
  Text.split_ws n s = Text.split_ws m s.
Proof.
  revert m s. induction n as [|k IH]; intros m s Hn Hm;
    rewrite (split_ws_eq _ s), (split_ws_eq m s);
    pose proof (skip_ws_length s) as Hs;
    destruct (Text.skip_ws s) as [|c t] eqn:E; try reflexivity;
    simpl in Hs; [lia|].
  destruct m as [|j]; [lia|].
  pose proof (skip_ws_head s c t E) as Hc.
  destruct (Text.take_word (String c t)) as [w r] eqn:W.
  pose proof (take_word_length _ _ _ W) as Hl.
  destruct (take_word_head c t w r Hc W) as [w' ->].
  simpl in Hl. f_equal. apply IH; lia.
Qed.

(** A bound of the length of the text or more never cuts a piece short:
    [text_split] is the split without a bound. *)
Lemma split_ws_saturated n s :
  (String.length s <= n)%nat -> Text.split_ws n s = text_split s.
Proof. intros H. unfold text_split. apply split_ws_bound; [exact H|lia]. Qed.

Lemma nth_nth_error (l : list string) i :
  (i < List.length l)%nat -> nth_error l i = Some (nth i l EmptyString).
Proof.
  revert i. induction l as [|a l IH]; intros i; simpl; [lia|].
  destruct i; simpl; [reflexivity|]. intros H. apply IH. lia.
Qed.

(** X1.  The row stored by an accepted registration is the one found under
    the symbol: it carries the chat of the request, its symbol is
    [str.upper] of a piece of the text that is not empty and holds no
    blank character, and its schedule is not empty and does not start
    with a blank character. *)
Theorem registered_row_well_formed upper cron env message w t :
  List.length (args_of message) = 3%nat ->
  is_valid cron (expr_of message) = true ->
  store w = Some t ->
  exists t' r word,
    store (snd (set_reminder upper cron env message w)) = Some t'
    /\ find_symbol (symbol_of upper message) t' = Some r
    /\ chat_id r = chat message
    /\ symbol r = upper word
    /\ word <> EmptyString
    /\ Text.no_blank word = true
    /\ cron_expr r <> EmptyString
    /\ Text.after_blank (cron_expr r) = None.
Proof.
  intros Hn Hv Ht.
  exists (sql_replace (symbol_of upper message) (chat message) (expr_of message)
            (clock env (tick w)) t),
    (mkRow (symbol_of upper message) (chat message) (expr_of message) None
           (clock env (tick w))),
    (nth 1 (args_of message) EmptyString).
  split; [apply set_reminder_accepted; assumption|].
  split; [apply find_symbol_replace|].
  split; [reflexivity|]. split; [reflexivity|]. simpl.
  assert (H1 : nth_error (args_of message) 1
               = Some (nth 1 (args_of message) EmptyString))
    by (apply nth_nth_error; lia).
  assert (H2 : nth_error (args_of message) 2
               = Some (nth 2 (args_of message) EmptyString))
    by (apply nth_nth_error; lia).
  unfold args_of in H1 at 1, H2 at 1.
  apply split_ws_piece in H1. apply split_ws_piece in H2.
  destruct H1 as [[N1 _] B1]. destruct H2 as [[N2 A2] _].
  unfold expr_of.
  split; [exact N1|]. split; [apply B1; lia|]. split; [exact N2|exact A2].
Qed.

Lemma registered_row_well_formed_witness :
  exists t' r word,
    store (snd (Scenario.register (Scenario.frozen Scenario.T None true)
                  (Scenario.nbsp ++ " /setreminder" ++ Scenario.nbsp
                   ++ " btc   */5 * * * *") 42
                  (Scenario.world_of [Scenario.btc None]))) = Some t'
    /\ find_symbol "BTC" t' = Some r
    /\ chat_id r = 42
    /\ symbol r = Text.ascii_upper word
    /\ word <> EmptyString
    /\ Text.no_blank word = true.
Proof.
  destruct (registered_row_well_formed Text.ascii_upper EveryMinutes.croniter
              (Scenario.frozen Scenario.T None true)
              (mkMessage (Scenario.nbsp ++ " /setreminder" ++ Scenario.nbsp
                          ++ " btc   */5 * * * *") 42)
              (Scenario.world_of [Scenario.btc None]) [Scenario.btc None]
              eq_refl eq_refl eq_refl)
    as (t' & r & word & Hs & Hf & Hc & Hu & Hne & Hb & _).
  exists t', r, word. repeat split; assumption.
Defined.

(** X2.  Every run of [set_reminder] ends with a reply to the requesting
    chat, and it raises, with the error of the Telegram client, exactly
    when that last reply was not sent: no error of its own escapes.  In
    particular a missing table is answered with the error of the database
    as the only reply, and the table stays missing. *)
Theorem set_reminder_always_answers upper cron env message w :
  (exists before m sent,
     trace (snd (set_reminder upper cron env message w))
     = trace w ++ before ++ [EvReply (chat message) m sent]
     /\ fst (set_reminder upper cron env message w)
        = if sent then Ok tt else Raise ApiException)
  /\ (List.length (args_of message) = 3%nat ->
      is_valid cron (expr_of message) = true ->
      store w = None ->
      let sent := notify env (tick w) (chat message)
                         (OtherError OperationalError) in
      set_reminder upper cron env message w
      = (if sent then Ok tt else Raise ApiException,
         mkWorld None (S (tick w))
           (trace w ++ [EvReply (chat message) (OtherError OperationalError)
                          sent]))).
Proof.
  split.
  - unfold set_reminder, try_except.
    destruct (negb (Nat.eqb (List.length (Text.split_ws 2 (text message))) 3));
      [|destruct (negb (is_valid cron _))];
      cbv beta iota zeta delta
        [raise bind replace_reminder bot_reply_to get_crypto_price
         is_value_error];
      try (destruct (store w));
      simpl;
      repeat match goal with
             | |- context [notify env ?k ?c ?m] =>
                 destruct (notify env k c m); simpl
             | |- context [fetch env ?k ?s] => destruct (fetch env k s); simpl
             end;
      repeat rewrite <- app_assoc; simpl;
      lazymatch goal with
      | |- exists b m s, trace w ++ ?l = _ /\ _ =>
          exists (removelast l); simpl; do 2 eexists; split; reflexivity
      end.
  - intros Hn Hv Hs sent. subst sent.
    unfold set_reminder, try_except, expr_of, args_of in *.
    rewrite Hn, Hv.
    cbv beta iota zeta delta [bind replace_reminder negb Nat.eqb].
    rewrite Hs. simpl. unfold bot_reply_to. now rewrite Hs.
Qed.

Lemma set_reminder_always_answers_witness :
  set_reminder Text.ascii_upper EveryMinutes.croniter
    (Scenario.frozen Scenario.T None true)
    (mkMessage "/setreminder btc */5 * * * *" 42) (mkWorld None O [])
  = (Ok tt, mkWorld None 1 [EvReply 42 (OtherError OperationalError) true]).
Proof.
  exact (proj2 (set_reminder_always_answers Text.ascii_upper
                  EveryMinutes.croniter (Scenario.frozen Scenario.T None true)
                  (mkMessage "/setreminder btc */5 * * * *" 42)
                  (mkWorld None O [])) eq_refl eq_refl eq_refl).
Defined.

(** ** What a cycle does and does not do *)

Lemma sql_update_keeps_static s stamp t :
  map static_columns (sql_update_last_run s stamp t) = map static_columns t.
Proof.
  unfold sql_update_last_run. rewrite map_map. apply map_ext.
  intros r. now destruct (has_symbol s r).
Qed.

Lemma count_events_app p l1 l2 :
  count_events p (l1 ++ l2) = (count_events p l1 + count_events p l2)%nat.
Proof. unfold count_events. now rewrite filter_app, length_app. Qed.

Lemma event_of_incl rs rs' e : incl rs rs' -> event_of rs e -> event_of rs' e.
Proof.
  intros Hi (s & to & expr & last & Hin & He).
  exists s, to, expr, last. split; [apply Hi, Hin|exact He].
Qed.

Lemma cycle_ok_nil w : cycle_ok [] w w.
Proof.
  split.
  - exists []. rewrite app_nil_r. repeat split; auto.
  - intros t Ht. now exists t.
Qed.

Lemma cycle_ok_cons r rs w w1 w' :
  cycle_ok [r] w w1 -> cycle_ok rs w1 w' -> cycle_ok (r :: rs) w w'.
Proof.
  intros [(l1 & T1 & F1 & N1 & P1) S1] [(l2 & T2 & F2 & N2 & P2) S2]. split.
  - exists (l1 ++ l2). rewrite T2, T1, app_assoc.
    split; [reflexivity|]. split.
    + apply Forall_app. split.
      * eapply Forall_impl; [|exact F1]. intros e.
        apply event_of_incl. intros x [<-|[]]. now left.
      * eapply Forall_impl; [|exact F2]. intros e.
        apply event_of_incl. intros x Hx. now right.
    + rewrite !count_events_app. simpl in *. lia.
  - intros t Ht. destruct (S1 t Ht) as (t1 & E1 & A1).
    destruct (S2 t1 E1) as (t2 & E2 & A2).
    exists t2. split; [exact E2|congruence].
Qed.

Section CycleEffects.

Variable cron : Croniter.
Variable env : Env.

Lemma guarded_cycle_ok now r w w' :
  guarded_reminder cron env now r w = (Ok tt, w') -> cycle_ok [r] w w'.
Proof.
  destruct r as [[[s to] expr] last].
  assert (Hin : In (s, to, expr, last) [(s, to, expr, last)]) by now left.
  destruct (is_due cron expr last now) as [[|] | e |] eqn:Hd.
  - rewrite (guarded_due cron env now s to expr last w Hd). intros [= <-].
    assert (Hev : forall quote sent last_event,
               (forall rs, In (s, to, expr, last) rs -> event_of rs last_event) ->
               is_send last_event = false -> is_price last_event = false ->
               let l := [EvPrice s quote; EvSend to (price_message s quote) sent;
                         last_event] in
               Forall (event_of [(s, to, expr, last)]) l
               /\ (count_events is_send l <= 1)%nat
               /\ count_events is_price l = count_events is_send l).
    { intros quote sent last_event Hl Hs Hp. split.
      - repeat constructor; [| |apply Hl, Hin];
          exists s, to, expr, last; (split; [exact Hin|]); simpl; eauto.
      - unfold count_events. simpl. rewrite Hs, Hp. simpl. split; [lia|reflexivity]. }
    unfold fired.
    destruct (notify env (S (tick w)) to _); [destruct (store w) as [t|] eqn:Hst|];
      split; simpl.
    + eexists. split; [reflexivity|]. apply Hev; try reflexivity.
      intros rs Hrs. exists s, to, expr, last. now split.
    + intros t0 Ht0. rewrite Hst in Ht0. injection Ht0 as <-.
      eexists. split; [reflexivity|]. apply sql_update_keeps_static.
    + eexists. split; [reflexivity|]. apply Hev; try reflexivity.
      intros rs Hrs. exists s, to, expr, last. now split.
    + intros t0 Ht0. rewrite Hst in Ht0. discriminate.
    + eexists. split; [reflexivity|]. apply Hev; try reflexivity.
      intros rs Hrs. exists s, to, expr, last. now split.
    + intros t0 Ht0. now exists t0.
  - rewrite (guarded_not_due cron env now s to expr last w Hd). intros [= <-].
    split.
    + exists []. rewrite app_nil_r. repeat split; auto.
      unfold count_events. simpl. lia.
    + intros t Ht. now exists t.
  - rewrite (guarded_raise cron env now s to expr last w e Hd). intros [= <-].
    split; simpl.
    + eexists. split; [reflexivity|]. split.
      * repeat constructor. exists s, to, expr, last. now split.
      * unfold count_events. simpl. split; [lia|reflexivity].
    + intros t Ht. now exists t.
  - now apply is_due_runs in Hd.
Qed.

Lemma loop_cycle_ok now rs w :
  exists w',
    for_each rs (guarded_reminder cron env now) w = (Ok tt, w')
    /\ cycle_ok rs w w'.
Proof.
  revert w. induction rs as [|r rs IH]; intros w; simpl.
  - exists w. split; [reflexivity|apply cycle_ok_nil].
  - destruct (guarded_returns cron env now r w) as (w1 & E1 & _).
    destruct (IH w1) as (w' & E' & C').
    exists w'. split.
    + unfold bind. now rewrite E1.
    + eapply cycle_ok_cons; [apply (guarded_cycle_ok now), E1|exact C'].
Qed.

(** The effect of one cycle over the table [t]. *)
Lemma check_cycle_ok w t :
  store w = Some t ->
  exists w' l t',
    check_cycle cron env w = (Ok tt, w')
    /\ trace w' = trace w ++ l
    /\ Forall (event_of (map select_reminder t)) l
    /\ (count_events is_send l <= List.length t)%nat
    /\ count_events is_price l = count_events is_send l
    /\ store w' = Some t'
    /\ map static_columns t' = map static_columns t.
Proof.
  intros Ht. rewrite (check_cycle_unfold cron env w t Ht).
  destruct (loop_cycle_ok (clock env (tick w)) (map select_reminder t)
              (mkWorld (Some t) (S (tick w)) (trace w)))
    as (w' & E & [(l & Tl & Fl & Nl & Pl) St]).
  destruct (St t eq_refl) as (t' & Hs & Hc).
  exists w', l, t'. rewrite length_map in Nl. simpl in Tl. auto 10.
Qed.

(** A reminder of the table that is decided due has its price fetched and
    its text handed to the notifier in the cycle. *)
Lemma cycle_fires_due w t r :
  store w = Some t -> In r t ->
  is_due cron (cron_expr r) (last_run r) (clock env (tick w)) = Ok true ->
  exists before quote sent after,
    trace (snd (check_cycle cron env w))
    = trace w ++ before
      ++ EvPrice (symbol r) quote
         :: EvSend (chat_id r) (price_message (symbol r) quote) sent
         :: after.
Proof.
  intros Ht Hin Hd.
  destruct (cycle_visits cron env w t r Ht Hin)
    as (w1 & w2 & w' & l1 & l2 & H1 & E2 & H2 & E').
  unfold select_reminder in E2. rewrite (guarded_due _ _ _ _ _ _ _ _ Hd) in E2.
  injection E2 as <-.
  destruct (fired_trace env (symbol r) (chat_id r) w1) as [tail Hf].
  exists l1, (fetch env (tick w1) (symbol r)),
    (notify env (S (tick w1)) (chat_id r)
       (price_message (symbol r) (fetch env (tick w1) (symbol r)))),
    (tail ++ l2).
  rewrite E'. simpl.
  rewrite H2, Hf, H1. repeat rewrite <- app_assoc. reflexivity.
Qed.

End CycleEffects.

Lemma select_owned_static c t t' :
  map static_columns t' = map static_columns t ->
  sql_select_owned c t' = sql_select_owned c t.
Proof.
  unfold sql_select_owned.
  revert t. induction t' as [|a t' IH]; intros [|b t]; simpl;
    try discriminate; [reflexivity|].
  unfold static_columns at 1 2. intros [= Hs Hc He _ Hrest].
  rewrite Hc. destruct (chat_id b =? c); simpl.
  - rewrite Hs, He. f_equal. now apply IH.
  - now apply IH.
Qed.

(** X3.  A cycle sends price texts only, each to the chat of a row of the
    table and about the symbol of that row; it never answers a message and
    never sleeps. *)
Theorem cycle_notifies_owners_only cron env w t :
  store w = Some t ->
  exists l,
    trace (snd (check_cycle cron env w)) = trace w ++ l
    /\ (forall to m sent, In (EvSend to m sent) l ->
        exists r quote, In r t /\ chat_id r = to
                        /\ m = price_message (symbol r) quote)
    /\ (forall to m sent, ~ In (EvReply to m sent) l)
    /\ (forall seconds, ~ In (EvSleep seconds) l).
Proof.
  intros Ht.
  destruct (check_cycle_ok cron env w t Ht)
    as (w' & l & t' & E & Tl & Fl & _).
  exists l. rewrite E. simpl. split; [exact Tl|].
  rewrite Forall_forall in Fl.
  split; [|split].
  - intros to m sent Hin.
    destruct (Fl _ Hin) as (s & to' & expr & last & Hr & -> & quote & ->).
    apply in_map_iff in Hr. destruct Hr as (r & Hr & Hrt).
    unfold select_reminder in Hr. injection Hr as <- <- _ _.
    now exists r, quote.
  - intros to m sent Hin.
    now destruct (Fl _ Hin) as (s & to' & expr & last & _ & []).
  - intros seconds Hin.
    now destruct (Fl _ Hin) as (s & to' & expr & last & _ & []).
Qed.

Lemma cycle_notifies_owners_only_witness :
  exists l,
    trace (snd (Scenario.cycle (Scenario.frozen Scenario.T (Some 50000) true)
                  (Scenario.world_of [Scenario.broken; Scenario.btc None])))
    = l
    /\ forall to m sent, In (EvSend to m sent) l ->
       exists r quote, In r [Scenario.broken; Scenario.btc None]
                       /\ chat_id r = to
                       /\ m = price_message (symbol r) quote.
Proof.
  destruct (cycle_notifies_owners_only EveryMinutes.croniter
              (Scenario.frozen Scenario.T (Some 50000) true)
              (Scenario.world_of [Scenario.broken; Scenario.btc None])
              [Scenario.broken; Scenario.btc None] eq_refl)
    as (l & Hl & Hs & _).
  exists l. split; [exact Hl|exact Hs].
Defined.

(** X4.  A cycle calls the notifier at most as many times as the table has
    rows, and asks the price API exactly once for each call of the
    notifier. *)
Theorem cycle_sends_bounded cron env w t :
  store w = Some t ->
  exists l,
    trace (snd (check_cycle cron env w)) = trace w ++ l
    /\ (count_events is_send l <= List.length t)%nat
    /\ count_events is_price l = count_events is_send l.
Proof.
  intros Ht.
  destruct (check_cycle_ok cron env w t Ht)
    as (w' & l & t' & E & Tl & _ & Nl & Pl & _).
  exists l. rewrite E. auto.
Qed.

Lemma cycle_sends_bounded_witness :
  exists l,
    trace (snd (Scenario.cycle (Scenario.frozen Scenario.T None false)
                  (Scenario.world_of [Scenario.broken; Scenario.btc None])))
    = l
    /\ (count_events is_send l <= 2)%nat.
Proof.
  destruct (cycle_sends_bounded EveryMinutes.croniter
              (Scenario.frozen Scenario.T None false)
              (Scenario.world_of [Scenario.broken; Scenario.btc None])
              [Scenario.broken; Scenario.btc None] eq_refl)
    as (l & Hl & Hn & _).
  exists l. split; [exact Hl|exact Hn].
Defined.

(** X5.  A cycle changes no symbol, chat, schedule or creation time of the
    table, so every chat gets the same answer from [list_reminders] after
    the cycle as before it. *)
Theorem cycle_keeps_listing cron env w t message :
  store w = Some t ->
  exists t',
    store (snd (check_cycle cron env w)) = Some t'
    /\ map static_columns t' = map static_columns t
    /\ fst (list_reminders message (Some t'))
       = fst (list_reminders message (Some t)).
Proof.
  intros Ht.
  destruct (check_cycle_ok cron env w t Ht)
    as (w' & l & t' & E & _ & _ & _ & _ & Hs & Hc).
  exists t'. rewrite E. split; [exact Hs|]. split; [exact Hc|].
  unfold list_reminders. simpl.
  now rewrite (select_owned_static (chat message) t t' Hc).
Qed.

Lemma cycle_keeps_listing_witness :
  exists t',
    store (snd (Scenario.cycle (Scenario.frozen Scenario.T None true)
                  (Scenario.world_of [Scenario.btc None]))) = Some t'
    /\ fst (list_reminders (mkMessage "/myreminders" Scenario.TEST_CHAT_ID)
              (Some t'))
       = Ok (ActiveReminders [("BTC", "*/5 * * * *")%string]).
Proof.
  destruct (cycle_keeps_listing EveryMinutes.croniter
              (Scenario.frozen Scenario.T None true)
              (Scenario.world_of [Scenario.btc None]) [Scenario.btc None]
              (mkMessage "/myreminders" Scenario.TEST_CHAT_ID) eq_refl)
    as (t' & Hs & _ & Hl).
  exists t'. split; [exact Hs|exact Hl].
Defined.

(** X6.  With an evaluator that answers earlier instants for the previous
    match, as croniter does, every reminder of the table whose schedule
    evaluates is fired by every cycle, whether it has fired before or not:
    the test against -60 seconds never holds a reminder back. *)
Theorem every_cycle_fires cron env w t r ref :
  prev_is_earlier cron ->
  store w = Some t ->
  In r t ->
  is_valid cron (cron_expr r) = true ->
  match last_run r with
  | Some _ => get_prev cron (cron_expr r) (clock env (tick w))
  | None => get_next cron (cron_expr r) (clock env (tick w))
  end = Some ref ->
  exists before quote sent after,
    trace (snd (check_cycle cron env w))
    = trace w ++ before
      ++ EvPrice (symbol r) quote
         :: EvSend (chat_id r) (price_message (symbol r) quote) sent
         :: after.
Proof.
  intros Hlt Ht Hin Hv Href.
  apply (cycle_fires_due cron env w t r Ht Hin).
  destruct (last_run r) as [stamp|].
  - eapply fired_before_is_due; eassumption.
  - eapply never_fired_is_due; eassumption.
Qed.

Lemma every_cycle_fires_witness :
  exists before quote sent after,
    trace (snd (Scenario.cycle
                  (Scenario.frozen (Scenario.T + 2 * minute_us) (Some 50000) true)
                  (Scenario.world_of [Scenario.btc (Some Scenario.T)])))
    = before ++ EvPrice "BTC" quote
        :: EvSend Scenario.TEST_CHAT_ID (price_message "BTC" quote) sent
        :: after.
Proof.
  exact (every_cycle_fires EveryMinutes.croniter
           (Scenario.frozen (Scenario.T + 2 * minute_us) (Some 50000) true)
           (Scenario.world_of [Scenario.btc (Some Scenario.T)])
           [Scenario.btc (Some Scenario.T)] (Scenario.btc (Some Scenario.T))
           Scenario.T every_minutes_prev_is_earlier eq_refl
           (or_introl eq_refl) eq_refl eq_refl).
Defined.

(** X7.  An accepted registration is fired by the next cycle, whatever the
    time of the cycle and whatever the symbol's earlier row had recorded:
    the new row has never fired.  The schedule only has to have a next
    date. *)
Theorem registration_fires_next_cycle upper cron env message w t n :
  List.length (args_of message) = 3%nat ->
  is_valid cron (expr_of message) = true ->
  store w = Some t ->
  let w1 := snd (set_reminder upper cron env message w) in
  get_next cron (expr_of message) (clock env (tick w1)) = Some n ->
  exists before quote sent after,
    trace (snd (check_cycle cron env w1))
    = trace w1 ++ before
      ++ EvPrice (symbol_of upper message) quote
         :: EvSend (chat message) (price_message (symbol_of upper message) quote) sent
         :: after.
Proof.
  intros Hn Hv Ht w1 Hnext.
  pose proof (set_reminder_accepted upper cron env message w t Hn Hv Ht) as Hs.
  fold w1 in Hs.
  apply (cycle_fires_due cron env w1 _
           (mkRow (symbol_of upper message) (chat message) (expr_of message) None
                  (clock env (tick w))) Hs).
  - unfold sql_replace. apply in_or_app. right. now left.
  - simpl. eapply never_fired_is_due; eassumption.
Qed.

Lemma registration_fires_next_cycle_witness :
  let e := Scenario.frozen (Scenario.T + 2 * minute_us) (Some 50000) true in
  let w1 := snd (Scenario.register e "/setreminder btc */5 * * * *" 42
                   (Scenario.world_of [Scenario.btc (Some Scenario.T)])) in
  exists before quote sent after,
    trace (snd (Scenario.cycle e w1))
    = trace w1 ++ before
      ++ EvPrice "BTC" quote :: EvSend 42 (price_message "BTC" quote) sent
         :: after.
Proof.
  exact (registration_fires_next_cycle Text.ascii_upper EveryMinutes.croniter
           (Scenario.frozen (Scenario.T + 2 * minute_us) (Some 50000) true)
           (mkMessage "/setreminder btc */5 * * * *" 42)
           (Scenario.world_of [Scenario.btc (Some Scenario.T)])
           [Scenario.btc (Some Scenario.T)] (Scenario.T + 5 * minute_us)
           eq_refl eq_refl eq_refl eq_refl).
Defined.

Lemma event_of_not_sleep rs l :
  Forall (event_of rs) l -> count_events is_sleep l = O.
Proof.
  induction 1 as [|e l (s & to & expr & last & _ & He) _ IH]; [reflexivity|].
  unfold count_events in *. simpl.
  destruct e; simpl; try exact IH. contradiction.
Qed.

(** X8.  While the table exists the checker cannot be stopped: no failure
    of the price API, of the notifier or of the cron evaluator ends the
    loop.  After any number of turns it is still running, it has slept once
    per turn, and the rows of the table are the same up to [last_run]. *)
Theorem check_reminders_keeps_turning cron env n w t :
  store w = Some t ->
  exists w' t',
    check_reminders cron env n w = (OutOfFuel, w')
    /\ count_events is_sleep (trace w')
       = (count_events is_sleep (trace w) + n)%nat
    /\ store w' = Some t'
    /\ map static_columns t' = map static_columns t.
Proof.
  revert w t. induction n as [|n IH]; intros w t Ht; simpl.
  - exists w, t. repeat split; auto.
  - destruct (check_cycle_ok cron env w t Ht)
      as (w1 & l & t1 & E & Tl & Fl & _ & _ & Hs & Hc).
    unfold bind. rewrite E. unfold emit at 1.
    destruct (IH (mkWorld (store w1) (tick w1) (trace w1 ++ [EvSleep 60])) t1 Hs)
      as (w' & t' & E' & Hn & Hs' & Hc').
    exists w', t'. split; [exact E'|]. split; [|split; [exact Hs'|congruence]].
    rewrite Hn. simpl. rewrite Tl, !count_events_app.
    rewrite (event_of_not_sleep _ _ Fl).
    change (count_events is_sleep [EvSleep 60]) with 1%nat. lia.
Qed.

Lemma check_reminders_keeps_turning_witness :
  exists w' t',
    check_reminders EveryMinutes.croniter (Scenario.frozen Scenario.T None false)
      3 (Scenario.world_of [Scenario.broken; Scenario.btc None])
    = (OutOfFuel, w')
    /\ count_events is_sleep (trace w') = 3%nat
    /\ store w' = Some t'.
Proof.
  destruct (check_reminders_keeps_turning EveryMinutes.croniter
              (Scenario.frozen Scenario.T None false) 3
              (Scenario.world_of [Scenario.broken; Scenario.btc None])
              [Scenario.broken; Scenario.btc None] eq_refl)
    as (w' & t' & E & Hn & Hs & _).
  exists w', t'. split; [exact E|]. split; [exact Hn|exact Hs].
Defined.

(** X9.  Without the table the checker ends on its first turn with the
    error of the database, raised by the read of the reminders outside the
    [try]: nothing is sent or logged, and the loop does not sleep and try
    again. *)
Theorem check_reminders_stops_without_table cron env n w :
  store w = None ->
  check_reminders cron env (S n) w
  = (Raise OperationalError, mkWorld None (S (tick w)) (trace w)).
Proof.
  intros Hs. simpl.
  unfold bind, check_cycle, bind, datetime_now, get_all_reminders. simpl.
  now rewrite Hs.
Qed.

Lemma check_reminders_stops_without_table_witness :
  check_reminders EveryMinutes.croniter (Scenario.frozen Scenario.T None true)
    5 (mkWorld None O [])
  = (Raise OperationalError, mkWorld None 1 []).
Proof.
  exact (check_reminders_stops_without_table EveryMinutes.croniter
           (Scenario.frozen Scenario.T None true) 4 (mkWorld None O [])
           eq_refl).
Defined.

(** ** The update of [last_run] *)

Lemma sql_update_absent s stamp t :
  count_symbol s t = O -> sql_update_last_run s stamp t = t.
Proof.
  unfold count_symbol, sql_update_last_run.
  induction t as [|r t IH]; simpl; [reflexivity|].
  destruct (has_symbol s r); simpl; [discriminate|].
  intros H. now rewrite IH.
Qed.

(** X10.  The update of [last_run] for a symbol that has no row, as after a
    removal during the cycle, is not an error: the call returns and the
    table is as it was. *)
Theorem update_of_missing_symbol env s w t :
  store w = Some t ->
  count_symbol s t = O ->
  fst (update_reminder_last_run env s w) = Ok tt
  /\ store (snd (update_reminder_last_run env s w)) = Some t.
Proof.
  intros Ht Hc. unfold update_reminder_last_run, bind, datetime_now. simpl.
  rewrite Ht. simpl. now rewrite sql_update_absent.
Qed.

Lemma update_of_missing_symbol_witness :
  store (snd (update_reminder_last_run (Scenario.frozen Scenario.T None true)
                "ETH" (Scenario.world_of [Scenario.btc None])))
  = Some [Scenario.btc None].
Proof.
  exact (proj2 (update_of_missing_symbol (Scenario.frozen Scenario.T None true)
                  "ETH" (Scenario.world_of [Scenario.btc None])
                  [Scenario.btc None] eq_refl eq_refl)).
Defined.

(** X11.  The update of [last_run] writes the clock into the rows of its
    symbol and changes nothing else: the rows of other symbols stay as they
    are, and no symbol, chat, schedule or creation time changes. *)
Theorem update_touches_last_run_only env s w t :
  store w = Some t ->
  exists t',
    store (snd (update_reminder_last_run env s w)) = Some t'
    /\ map static_columns t' = map static_columns t
    /\ (forall r, In r t -> symbol r <> s -> In r t')
    /\ (forall r, In r t' -> symbol r = s ->
        last_run r = Some (clock env (tick w))).
Proof.
  intros Ht. unfold update_reminder_last_run, bind, datetime_now. simpl.
  rewrite Ht. simpl. eexists. split; [reflexivity|].
  split; [apply sql_update_keeps_static|]. split.
  - intros r Hin Hne. unfold sql_update_last_run. apply in_map_iff.
    exists r. split; [|exact Hin].
    apply has_symbol_false in Hne. now rewrite Hne.
  - intros r. apply sql_update_sets_last_run.
Qed.

Lemma update_touches_last_run_only_witness :
  exists t',
    store (snd (update_reminder_last_run (Scenario.frozen 77 None true)
                  "BTC" (Scenario.world_of [Scenario.broken; Scenario.btc None])))
    = Some t'
    /\ In Scenario.broken t'.
Proof.
  destruct (update_touches_last_run_only (Scenario.frozen 77 None true)
              "BTC" (Scenario.world_of [Scenario.broken; Scenario.btc None])
              [Scenario.broken; Scenario.btc None] eq_refl)
    as (t' & Hs & _ & Hk & _).
  exists t'. split; [exact Hs|].
  apply Hk; [now left|discriminate].
Defined.

(** ** Removing and listing *)

Lemma owned_by_true c s r :
  owned_by c s r = true <-> chat_id r = c /\ symbol r = s.
Proof.
  unfold owned_by. rewrite andb_true_iff, Z.eqb_eq, has_symbol_true. tauto.
Qed.

Lemma filter_nothing {A} (f : A -> bool) l :
  (forall x, In x l -> f x = false) ->
  filter f l = [] /\ filter (fun x => negb (f x)) l = l.
Proof.
  induction l as [|a l IH]; intros H; simpl; [auto|].
  rewrite (H a (or_introl eq_refl)). simpl.
  destruct IH as [I1 I2]; [intros x Hx; apply H; now right|].
  now rewrite I1, I2.
Qed.

Lemma count_symbol_filter s (f : Row -> bool) t :
  (count_symbol s (filter f t) <= count_symbol s t)%nat.
Proof.
  unfold count_symbol. induction t as [|r t IH]; simpl; [lia|].
  destruct (f r); simpl; destruct (has_symbol s r); simpl; lia.
Qed.

Lemma count_symbol_delete c s t :
  (count_symbol s (filter (fun r => negb (owned_by c s r)) t)
   + List.length (filter (owned_by c s) t))%nat = count_symbol s t.
Proof.
  unfold count_symbol, owned_by. induction t as [|r t IH]; simpl; [reflexivity|].
  destruct (chat_id r =? c); destruct (has_symbol s r) eqn:E; simpl;
    try rewrite E; simpl; lia.
Qed.

Lemma remove_reminder_word upper message word t :
  nth_error (text_split (text message)) 1 = Some word ->
  remove_reminder upper message (Some t)
  = (Ok (if (0 <? List.length (filter (owned_by (chat message) (upper word)) t))%nat
         then Removed (upper word)
         else NoActiveReminder (upper word)),
     Some (filter (fun r => negb (owned_by (chat message) (upper word) r)) t)).
Proof. intros H. unfold remove_reminder. now rewrite H. Qed.

(** X12.  A removal asked by a chat that has no row for the symbol, for
    one because the row belongs to another chat, deletes nothing: the
    table is as it was and the answer is that no reminder was found. *)
Theorem remove_needs_owner upper message (t : Table) word :
  nth_error (text_split (text message)) 1 = Some word ->
  (forall r, In r t -> symbol r = upper word -> chat_id r <> chat message) ->
  remove_reminder upper message (Some t)
  = (Ok (NoActiveReminder (upper word)), Some t).
Proof.
  intros Hw Hno. rewrite (remove_reminder_word upper message word t Hw).
  destruct (filter_nothing (owned_by (chat message) (upper word)) t)
    as [F1 F2].
  - intros r Hin. destruct (owned_by _ _ r) eqn:E; [|reflexivity].
    apply owned_by_true in E. destruct E as [Hc Hs].
    now destruct (Hno r Hin Hs).
  - now rewrite F1, F2.
Qed.

Lemma remove_needs_owner_witness :
  remove_reminder Text.ascii_upper (mkMessage "/removereminder btc" 42)
    (Some [Scenario.btc None])
  = (Ok (NoActiveReminder "BTC"), Some [Scenario.btc None]).
Proof.
  apply (remove_needs_owner Text.ascii_upper (mkMessage "/removereminder btc" 42)
           [Scenario.btc None] "btc" eq_refl).
  intros r [<-|[]] _. discriminate.
Defined.

(** X13.  A removal asked by the chat of the symbol's row answers that the
    reminder was removed and deletes exactly the rows of that symbol and
    chat; every other row stays.  On a table with one row per symbol the
    symbol is then gone and the table still has one row per symbol. *)
Theorem remove_deletes_owned upper message (t : Table) word r0 :
  nth_error (text_split (text message)) 1 = Some word ->
  In r0 t ->
  symbol r0 = upper word ->
  chat_id r0 = chat message ->
  exists t',
    remove_reminder upper message (Some t) = (Ok (Removed (upper word)), Some t')
    /\ (forall r, In r t' <->
                  In r t /\ ~ (chat_id r = chat message
                                /\ symbol r = upper word))
    /\ (List.length t' < List.length t)%nat
    /\ (unique_symbols t ->
        unique_symbols t' /\ count_symbol (upper word) t' = O).
Proof.
  intros Hw Hin Hs Hc. rewrite (remove_reminder_word upper message word t Hw).
  set (c := chat message). set (s := upper word).
  assert (Hown : In r0 (filter (owned_by c s) t)).
  { apply filter_In. split; [exact Hin|]. now apply owned_by_true. }
  assert (Hpos : (0 < List.length (filter (owned_by c s) t))%nat).
  { destruct (filter (owned_by c s) t); [destruct Hown|simpl; lia]. }
  eexists. split; [|split; [|split]].
  - apply Nat.ltb_lt in Hpos. now rewrite Hpos.
  - intros r. rewrite filter_In, negb_true_iff.
    rewrite <- (owned_by_true c s r).
    destruct (owned_by c s r); intuition congruence.
  - pose proof (filter_length (owned_by c s) t) as Hl. lia.
  - intros U. split.
    + intros s'. eapply Nat.le_trans; [apply count_symbol_filter|apply U].
    + pose proof (count_symbol_delete c s t) as Hd. specialize (U s). lia.
Qed.

Lemma remove_deletes_owned_witness :
  exists t',
    remove_reminder Text.ascii_upper (mkMessage "/removereminder Btc now" Scenario.TEST_CHAT_ID)
      (Some [Scenario.broken; Scenario.btc None])
    = (Ok (Removed "BTC"), Some t')
    /\ (List.length t' < 2)%nat.
Proof.
  destruct (remove_deletes_owned Text.ascii_upper
              (mkMessage "/removereminder Btc now" Scenario.TEST_CHAT_ID)
              [Scenario.broken; Scenario.btc None] "Btc" (Scenario.btc None)
              eq_refl (or_intror (or_introl eq_refl)) eq_refl eq_refl)
    as (t' & E & _ & Hl & _).
  exists t'. split; [exact E|exact Hl].
Defined.

(** X14.  Removing twice is removing once: the second request finds the
    store as the first left it, leaves it so, and answers that no reminder
    was found where the first answered that it was removed. *)
Theorem remove_twice upper message st :
  remove_reminder upper message (snd (remove_reminder upper message st))
  = (match fst (remove_reminder upper message st) with
     | Ok (Removed s) => Ok (NoActiveReminder s)
     | other => other
     end,
     snd (remove_reminder upper message st)).
Proof.
  unfold remove_reminder.
  destruct (nth_error (text_split (text message)) 1) as [word|]; [|reflexivity].
  destruct st as [t|]; [|reflexivity]. simpl.
  set (f := owned_by (chat message) (upper word)).
  destruct (filter_nothing f (filter (fun r => negb (f r)) t)) as [F1 F2].
  - intros r Hr. apply filter_In in Hr. destruct Hr as [_ Hr].
    now apply negb_true_iff in Hr.
  - rewrite F1, F2. simpl.
    now destruct (0 <? List.length (filter f t))%nat.
Qed.

Lemma select_owned_In c t s e :
  In (s, e) (sql_select_owned c t) <->
  exists r, In r t /\ chat_id r = c /\ symbol r = s /\ cron_expr r = e.
Proof.
  unfold sql_select_owned. rewrite in_map_iff. split.
  - intros (r & [= Hs He] & Hr). apply filter_In in Hr.
    destruct Hr as [Hr Hc]. apply Z.eqb_eq in Hc. now exists r.
  - intros (r & Hr & Hc & Hs & He). exists r. split; [congruence|].
    apply filter_In. split; [exact Hr|]. now apply Z.eqb_eq.
Qed.

Lemma list_reminders_entries message (t : Table) entries :
  fst (list_reminders message (Some t)) = Ok (ActiveReminders entries) ->
  entries = sql_select_owned (chat message) t.
Proof.
  unfold list_reminders. simpl.
  destruct (sql_select_owned (chat message) t); [discriminate|].
  now intros [= <-].
Qed.

Lemma list_reminders_some message (t : Table) x :
  In x (sql_select_owned (chat message) t) ->
  fst (list_reminders message (Some t))
  = Ok (ActiveReminders (sql_select_owned (chat message) t)).
Proof.
  unfold list_reminders. simpl.
  destruct (sql_select_owned (chat message) t); [intros []|reflexivity].
Qed.

(** X15.  The last registrant of a symbol wins: after an accepted
    registration the requesting chat finds the symbol with its schedule in
    its list, and no list of any chat shows the symbol with another chat or
    another schedule, whoever had registered it before. *)
Theorem last_registrant_wins upper cron env message w t :
  List.length (args_of message) = 3%nat ->
  is_valid cron (expr_of message) = true ->
  store w = Some t ->
  exists t',
    store (snd (set_reminder upper cron env message w)) = Some t'
    /\ (exists entries,
          fst (list_reminders message (Some t')) = Ok (ActiveReminders entries)
          /\ In (symbol_of upper message, expr_of message) entries)
    /\ (forall asking entries e,
          fst (list_reminders asking (Some t')) = Ok (ActiveReminders entries) ->
          In (symbol_of upper message, e) entries ->
          chat asking = chat message /\ e = expr_of message).
Proof.
  intros Hn Hv Ht.
  exists (sql_replace (symbol_of upper message) (chat message) (expr_of message)
            (clock env (tick w)) t).
  split; [apply set_reminder_accepted; assumption|].
  set (new := mkRow (symbol_of upper message) (chat message) (expr_of message) None
                    (clock env (tick w))).
  split.
  - eexists. split.
    + apply (list_reminders_some message _ (symbol_of upper message, expr_of message)).
      apply select_owned_In. exists new. split; [|now simpl].
      unfold sql_replace. apply in_or_app. right. now left.
    + apply select_owned_In. exists new. split; [|now simpl].
      unfold sql_replace. apply in_or_app. right. now left.
  - intros asking entries e Hl Hin.
    apply list_reminders_entries in Hl. subst entries.
    apply select_owned_In in Hin. destruct Hin as (r & Hr & Hc & Hs & He).
    unfold sql_replace in Hr. apply in_app_or in Hr. destruct Hr as [Hr|[Hr|[]]].
    + apply filter_In in Hr. destruct Hr as [_ Hr].
      apply negb_true_iff, has_symbol_false in Hr. contradiction.
    + subst r. simpl in *. now split.
Qed.

Lemma last_registrant_wins_witness :
  exists t',
    store (snd (Scenario.register (Scenario.frozen Scenario.T None true)
                  "/setreminder btc */30 * * * *" 42
                  (Scenario.world_of [Scenario.btc (Some Scenario.T)])))
    = Some t'
    /\ forall asking entries e,
         fst (list_reminders asking (Some t')) = Ok (ActiveReminders entries) ->
         In ("BTC"%string, e) entries ->
         chat asking = 42 /\ e = "*/30 * * * *"%string.
Proof.
  destruct (last_registrant_wins Text.ascii_upper EveryMinutes.croniter
              (Scenario.frozen Scenario.T None true)
              (mkMessage "/setreminder btc */30 * * * *" 42)
              (Scenario.world_of [Scenario.btc (Some Scenario.T)])
              [Scenario.btc (Some Scenario.T)] eq_refl eq_refl eq_refl)
    as (t' & Hs & _ & Hall).
  exists t'. split; [exact Hs|exact Hall].
Defined.

(** X16.  A registration followed by a removal by the same chat whose
    second word has the same [str.upper] as the symbol registered, however
    its letters are cased: the removal finds the reminder, and the table
    that is left is the table from before the registration without the
    rows of that symbol, so it is that very table when the symbol was new,
    and it has lost the row of another chat when the symbol was taken. *)
Theorem register_then_remove upper cron env message removal w t word :
  List.length (args_of message) = 3%nat ->
  is_valid cron (expr_of message) = true ->
  store w = Some t ->
  chat removal = chat message ->
  nth_error (text_split (text removal)) 1 = Some word ->
  upper word = symbol_of upper message ->
  remove_reminder upper removal (store (snd (set_reminder upper cron env message w)))
  = (Ok (Removed (symbol_of upper message)),
     Some (filter (fun r => negb (has_symbol (symbol_of upper message) r)) t))
  /\ (count_symbol (symbol_of upper message) t = O ->
      filter (fun r => negb (has_symbol (symbol_of upper message) r)) t = t).
Proof.
  intros Hn Hv Ht Hc Hw Hu. split.
  - rewrite (set_reminder_accepted upper cron env message w t Hn Hv Ht).
    rewrite (remove_reminder_word upper removal word _ Hw), Hu, Hc.
    set (s := symbol_of upper message). set (c := chat message).
    unfold sql_replace. rewrite !filter_app.
    destruct (filter_nothing (owned_by c s)
                (filter (fun r => negb (has_symbol s r)) t)) as [F1 F2].
    { intros r Hr. apply filter_In in Hr. destruct Hr as [_ Hr].
      unfold owned_by. apply negb_true_iff in Hr. rewrite Hr.
      apply andb_false_r. }
    rewrite F1, F2. simpl. unfold owned_by, has_symbol. simpl.
    rewrite Z.eqb_refl, String.eqb_refl. simpl.
    now rewrite app_nil_r.
  - intros H0.
    apply (filter_nothing (has_symbol (symbol_of upper message)) t).
    intros r Hr. destruct (has_symbol (symbol_of upper message) r) eqn:E; [|reflexivity].
    unfold count_symbol in H0.
    assert (Hin : In r (filter (has_symbol (symbol_of upper message)) t))
      by (apply filter_In; now split).
    destruct (filter (has_symbol (symbol_of upper message)) t); [destruct Hin|discriminate].
Qed.

Lemma register_then_remove_witness :
  remove_reminder Text.ascii_upper (mkMessage "/removereminder Btc" 42)
    (store (snd (Scenario.register (Scenario.frozen Scenario.T None true)
                   "/setreminder btc */30 * * * *" 42
                   (Scenario.world_of [Scenario.broken;
                                       Scenario.btc (Some Scenario.T)]))))
  = (Ok (Removed "BTC"), Some [Scenario.broken]).
Proof.
  exact (proj1 (register_then_remove Text.ascii_upper EveryMinutes.croniter
                  (Scenario.frozen Scenario.T None true)
                  (mkMessage "/setreminder btc */30 * * * *" 42)
                  (mkMessage "/removereminder Btc" 42)
                  (Scenario.world_of [Scenario.broken;
                                      Scenario.btc (Some Scenario.T)])
                  [Scenario.broken; Scenario.btc (Some Scenario.T)] "Btc"
                  eq_refl eq_refl eq_refl eq_refl eq_refl eq_refl)).
Defined.

Lemma select_owned_other c c' s t :
  c' <> c ->
  sql_select_owned c' (filter (fun r => negb (owned_by c s r)) t)
  = sql_select_owned c' t.
Proof.
  intros Hne. unfold sql_select_owned, owned_by.
  induction t as [|r t IH]; simpl; [reflexivity|].
  destruct (Z.eqb_spec (chat_id r) c) as [Hc|Hc]; simpl.
  - destruct (has_symbol s r); simpl.
    + destruct (Z.eqb_spec (chat_id r) c'); [congruence|exact IH].
    + destruct (chat_id r =? c'); simpl; now rewrite IH.
  - destruct (chat_id r =? c'); simpl; now rewrite IH.
Qed.

(** X17.  After a removal, whatever its answer, the list of the requesting
    chat does not show the symbol, and the list of every other chat is what
    it was. *)
Theorem removed_symbol_not_listed upper removal (t : Table) word :
  nth_error (text_split (text removal)) 1 = Some word ->
  exists t',
    snd (remove_reminder upper removal (Some t)) = Some t'
    /\ (forall e, ~ In (upper word, e) (sql_select_owned (chat removal) t'))
    /\ (forall asking, chat asking <> chat removal ->
        fst (list_reminders asking (Some t'))
        = fst (list_reminders asking (Some t))).
Proof.
  intros Hw. rewrite (remove_reminder_word upper removal word t Hw). simpl.
  eexists. split; [reflexivity|]. split.
  - intros e Hin. apply select_owned_In in Hin.
    destruct Hin as (r & Hr & Hc & Hs & _).
    apply filter_In in Hr. destruct Hr as [_ Hr].
    apply negb_true_iff in Hr.
    assert (owned_by (chat removal) (upper word) r = true)
      by now apply owned_by_true.
    congruence.
  - intros asking Hne. unfold list_reminders. simpl.
    now rewrite select_owned_other.
Qed.

Lemma removed_symbol_not_listed_witness :
  exists t',
    snd (remove_reminder Text.ascii_upper (mkMessage "/removereminder btc" Scenario.TEST_CHAT_ID)
           (Some [Scenario.broken; Scenario.btc None])) = Some t'
    /\ fst (list_reminders (mkMessage "/myreminders" 7) (Some t'))
       = Ok (ActiveReminders [("ETH", "every day")%string]).
Proof.
  destruct (removed_symbol_not_listed Text.ascii_upper
              (mkMessage "/removereminder btc" Scenario.TEST_CHAT_ID)
              [Scenario.broken; Scenario.btc None] "btc" eq_refl)
    as (t' & Hs & _ & Ho).
  exists t'. split; [exact Hs|].
  exact (Ho (mkMessage "/myreminders" 7) ltac:(discriminate)).
Defined.

(** X18.  A chat sees its own reminders only: the list that
    [list_reminders] answers holds exactly the symbol and schedule of the
    rows of the asking chat, and the answer is that there are no reminders
    exactly when the chat has no row, whatever rows other chats have. *)
Theorem listing_shows_own_rows_only message (t : Table) :
  (fst (list_reminders message (Some t)) = Ok NoReminders <->
   forall r, In r t -> chat_id r <> chat message)
  /\ (forall entries,
        fst (list_reminders message (Some t)) = Ok (ActiveReminders entries) ->
        (List.length entries <= List.length t)%nat
        /\ forall s e,
             In (s, e) entries <->
             exists r, In r t /\ chat_id r = chat message
                       /\ symbol r = s /\ cron_expr r = e).
Proof.
  split.
  - unfold list_reminders. simpl. split.
    + intros H r Hr Hc.
      assert (Hin : In (symbol r, cron_expr r)
                       (sql_select_owned (chat message) t))
        by (apply select_owned_In; now exists r).
      destruct (sql_select_owned (chat message) t); [destruct Hin|discriminate].
    + intros H. destruct (sql_select_owned (chat message) t) as [|[s e] l] eqn:E;
        [reflexivity|].
      assert (Hin : In (s, e) (sql_select_owned (chat message) t))
        by (rewrite E; now left).
      apply select_owned_In in Hin. destruct Hin as (r & Hr & Hc & _).
      now destruct (H r Hr).
  - intros entries Hl. apply list_reminders_entries in Hl. subst entries. split.
    + unfold sql_select_owned. rewrite length_map. apply filter_length_le.
    + intros s e. apply select_owned_In.
Qed.
